(** * Kumagaya Kids English: the inquiry endpoint of [server.ts]

    A shallow embedding of the sanitizers, the formatter, the validation
    chains and the request handler of [src/server.ts], followed by the
    properties of the specification that concern them.

    Conventions of the embedding.
    - A JavaScript string is the list of its UTF-16 code units ([jstring]).
    - A JavaScript value is a scalar of [value]; the built-in [trim] and
      the global [parseInt] are written out below. [toLowerCase] follows
      the Unicode case tables and is taken as the interface
      [StringPrototype].
    - A call that can raise returns a [result]; the handler's [try]/[catch]
      is the match on it.
    - What the handler does to the outside (HTTP call, console, timer) is a
      list of [event]s returned next to the response.
    - [validator.js] and [express-validator] are libraries, not part of the
      repository: the rules used by the chains are written out from their
      definition, except [isEmail] and [normalizeEmail], which are taken as
      the interface [ValidatorLib]; [normalizeEmail] answers with a string
      or with [false]. *)

From Stdlib Require Import ZArith NArith List String Ascii Bool Lia.
From Stdlib Require Import DecimalPos DecimalZ.
From stdpp Require Import base option list gmap.
Import ListNotations.

Local Open Scope N_scope.

(** ** JavaScript strings *)

Definition jstring := list N.

(** An ASCII literal of the source, as code units. *)
Definition lit (s : string) : jstring :=
  List.map N_of_ascii (list_ascii_of_string s).

Definition inRange (lo hi c : N) : bool := (lo <=? c) && (c <=? hi).

(** WhiteSpace and LineTerminator of ECMAScript: what [String.prototype.trim]
    strips and what [\s] matches. *)
Definition isWhiteSpace (c : N) : bool :=
  inRange 9 13 c || (c =? 32) || (c =? 160) || (c =? 5760)
  || inRange 8192 8202 c || (c =? 8232) || (c =? 8233) || (c =? 8239)
  || (c =? 8287) || (c =? 12288) || (c =? 65279).

Fixpoint dropWhile (p : N -> bool) (s : jstring) : jstring :=
  match s with
  | [] => []
  | c :: t => if p c then dropWhile p t else s
  end.

Fixpoint takeWhile (p : N -> bool) (s : jstring) : jstring :=
  match s with
  | [] => []
  | c :: t => if p c then c :: takeWhile p t else []
  end.

Definition trimStart (s : jstring) : jstring := dropWhile isWhiteSpace s.
Definition trimEnd (s : jstring) : jstring :=
  rev (dropWhile isWhiteSpace (rev s)).
Definition trim (s : jstring) : jstring := trimEnd (trimStart s).

(** [String.prototype.toLowerCase] follows the Unicode case tables: it can
    change the length of a string and looks at the context of a letter. It
    is not written out; it is the operation of this interface, and what a
    property needs of it is stated where it is needed. *)
Class StringPrototype := {
  toLowerCase : jstring -> jstring
}.

(** The lower-case mapping of the code units of Basic Latin and the Latin-1
    Supplement (A-Z, and U+00C0-U+00DE without the multiplication sign
    U+00D7). *)
Definition lowerUnit (c : N) : N :=
  if inRange 65 90 c then c + 32
  else if inRange 192 222 c && negb (c =? 215) then c + 32
  else c.

(** [toLowerCase] as it is on the strings of Basic Latin and Latin-1: an
    instance to run the embedding on such strings. *)
Definition latin1 : StringPrototype :=
  {| toLowerCase := List.map lowerUnit |}.

(** [str.replace(/[class]/g, fn)]: every code unit of the class is replaced
    by what the callback returns for it. *)
Definition replaceAll (cls : N -> bool) (fn : N -> jstring) (s : jstring)
  : jstring :=
  flat_map (fun c => if cls c then fn c else [c]) s.

(** [t] occurs in [s] as a contiguous run of code units. *)
Definition includes (s t : jstring) : Prop :=
  exists pre post, s = pre ++ t ++ post.

(** ** JavaScript values, numbers and exceptions *)

Inductive value :=
| VUndefined
| VNull
| VBool (b : bool)
| VNum (n : Z)          (* a number with an integral value *)
| VStr (s : jstring).

Inductive exn := TypeError.

Inductive result (A : Type) :=
| Ok (a : A)
| Throw (e : exn).
Arguments Ok {A} a.
Arguments Throw {A} e.

#[global] Instance result_ret : MRet result := fun A a => Ok a.

#[global] Instance result_bind : MBind result := fun A B k r =>
  match r with
  | Ok a => k a
  | Throw e => Throw e
  end.

(** The result of [parseInt]: an integer or [NaN]. The numbers of the
    embedding are the integers, kept exact: a Number of JavaScript is a
    double, which holds every integer up to 2^53 and rounds beyond. *)
Inductive number := NaN | Int (z : Z).

(** *** Decimal and hexadecimal numerals *)

Definition isDigit (c : N) : bool := inRange 48 57 c.

Definition digitOf (c : N) (k : Decimal.uint) : Decimal.uint :=
  match c - 48 with
  | 0 => Decimal.D0 k | 1 => Decimal.D1 k | 2 => Decimal.D2 k
  | 3 => Decimal.D3 k | 4 => Decimal.D4 k | 5 => Decimal.D5 k
  | 6 => Decimal.D6 k | 7 => Decimal.D7 k | 8 => Decimal.D8 k
  | _ => Decimal.D9 k
  end.

Fixpoint readDigits (s : jstring) : Decimal.uint :=
  match s with
  | [] => Decimal.Nil
  | c :: t => digitOf c (readDigits t)
  end.

Fixpoint showDigits (d : Decimal.uint) : jstring :=
  match d with
  | Decimal.Nil => []
  | Decimal.D0 k => 48 :: showDigits k
  | Decimal.D1 k => 49 :: showDigits k
  | Decimal.D2 k => 50 :: showDigits k
  | Decimal.D3 k => 51 :: showDigits k
  | Decimal.D4 k => 52 :: showDigits k
  | Decimal.D5 k => 53 :: showDigits k
  | Decimal.D6 k => 54 :: showDigits k
  | Decimal.D7 k => 55 :: showDigits k
  | Decimal.D8 k => 56 :: showDigits k
  | Decimal.D9 k => 57 :: showDigits k
  end.

(** [String(n)] for an integral number: its decimal digits. JavaScript
    prints the digits up to 10^21 and switches to exponent notation from
    there on; the embedding prints the digits throughout. *)
Definition showInt (n : Z) : jstring :=
  match Z.to_int n with
  | Decimal.Pos d => showDigits d
  | Decimal.Neg d => 45 :: showDigits d
  end.

Definition showNumber (n : number) : jstring :=
  match n with
  | NaN => lit "NaN"
  | Int z => showInt z
  end.

Definition isHexDigit (c : N) : bool :=
  isDigit c || inRange 97 102 c || inRange 65 70 c.

Definition hexDigitOf (c : N) (k : Hexadecimal.uint) : Hexadecimal.uint :=
  match (if isDigit c then c - 48
         else if inRange 97 102 c then c - 87 else c - 55) with
  | 0 => Hexadecimal.D0 k | 1 => Hexadecimal.D1 k | 2 => Hexadecimal.D2 k
  | 3 => Hexadecimal.D3 k | 4 => Hexadecimal.D4 k | 5 => Hexadecimal.D5 k
  | 6 => Hexadecimal.D6 k | 7 => Hexadecimal.D7 k | 8 => Hexadecimal.D8 k
  | 9 => Hexadecimal.D9 k | 10 => Hexadecimal.Da k | 11 => Hexadecimal.Db k
  | 12 => Hexadecimal.Dc k | 13 => Hexadecimal.Dd k | 14 => Hexadecimal.De k
  | _ => Hexadecimal.Df k
  end.

Fixpoint readHexDigits (s : jstring) : Hexadecimal.uint :=
  match s with
  | [] => Hexadecimal.Nil
  | c :: t => hexDigitOf c (readHexDigits t)
  end.

(** An optional sign in front of a numeral. *)
Definition splitSign (s : jstring) : bool * jstring :=
  match s with
  | c :: t =>
      if c =? 45 then (true, t) else if c =? 43 then (false, t) else (false, s)
  | [] => (false, [])
  end.

(** The global [parseInt(string)] without a radix: leading white space is
    skipped, a sign is read, the prefix [0x]/[0X] selects base 16, and the
    longest run of digits is converted; no digit at all gives [NaN]. The
    value is the exact integer, where JavaScript rounds to the nearest
    double above 2^53. *)
Definition parseInt (s : jstring) : number :=
  let '(neg, s2) := splitSign (trimStart s) in
  let signed (z : Z) : Z := if neg then (- z)%Z else z in
  let decimal :=
    match takeWhile isDigit s2 with
    | [] => NaN
    | ds => Int (signed (Z.of_uint (readDigits ds)))
    end in
  match s2 with
  | zero :: x :: t =>
      if (zero =? 48) && ((x =? 120) || (x =? 88)) then
        match takeWhile isHexDigit t with
        | [] => NaN
        | ds => Int (signed (Z.of_hex_uint (readHexDigits ds)))
        end
      else decimal
  | _ => decimal
  end.

(** [v.toString()]: a method call, so it raises on [undefined] and [null]. *)
Definition toStringMethod (v : value) : result jstring :=
  match v with
  | VUndefined | VNull => Throw TypeError
  | VBool true => Ok (lit "true")
  | VBool false => Ok (lit "false")
  | VNum n => Ok (showInt n)
  | VStr s => Ok s
  end.

(** ** Object literals used as maps *)

(** The members every object literal inherits from [Object.prototype]. *)
Definition objectPrototype : list jstring :=
  List.map lit
    [ "constructor"; "__defineGetter__"; "__defineSetter__"; "hasOwnProperty";
      "__lookupGetter__"; "__lookupSetter__"; "isPrototypeOf";
      "propertyIsEnumerable"; "toString"; "valueOf"; "__proto__";
      "toLocaleString" ]%string.

(** What [obj[key]] evaluates to for a literal whose own properties are
    strings: an own string, or an inherited member of [Object.prototype]. *)
Inductive property :=
| PString (s : jstring)
| PInherited (key : jstring).

Definition getProperty (obj : gmap jstring jstring) (key : jstring)
  : option property :=
  match obj !! key with
  | Some s => Some (PString s)
  | None =>
      if decide (key ∈ objectPrototype) then Some (PInherited key) else None
  end.

(** [obj[key] || fallback]: [undefined] and the empty string are falsy. *)
Definition orElse (p : option property) (fallback : jstring) : property :=
  match p with
  | None | Some (PString []) => PString fallback
  | Some q => q
  end.

(** The text a property turns into inside a template literal or as the
    return value of a [replace] callback (V8's rendering of the built-in
    functions; [__proto__] is the prototype object itself). *)
Definition toText (p : property) : jstring :=
  match p with
  | PString s => s
  | PInherited key =>
      if decide (key = lit "__proto__") then lit "[object Object]"
      else lit "function "
           ++ (if decide (key = lit "constructor") then lit "Object" else key)
           ++ lit "() { [native code] }"
  end.

(** ** Input sanitization helpers *)

Definition isAngle (c : N) : bool := (c =? 60) || (c =? 62).

Definition isHtmlSpecial (c : N) : bool :=
  (c =? 38) || (c =? 60) || (c =? 62) || (c =? 34) || (c =? 39).

Definition escapeMap : gmap jstring jstring :=
  list_to_map
    [ ([38], lit "&amp;"); ([60], lit "&lt;"); ([62], lit "&gt;");
      ([34], lit "&quot;"); ([39], lit "&#x27;") ].

Definition escapeChar (c : N) : jstring :=
  toText (orElse (getProperty escapeMap [c]) [c]).

Definition sanitizeInput (input : value) : jstring :=
  match input with
  | VStr s =>
      replaceAll isHtmlSpecial escapeChar
        (replaceAll isAngle (fun _ => []) (trim s))
  | _ => []
  end.

(** The class [[\d+\-() ]]. *)
Definition isPhoneChar (c : N) : bool :=
  isDigit c || (c =? 43) || (c =? 45) || (c =? 40) || (c =? 41) || (c =? 32).

Definition sanitizePhone (phone : value) : result jstring :=
  match phone with
  | VStr s => Ok (replaceAll (fun c => negb (isPhoneChar c)) (fun _ => []) s)
  | _ => Throw TypeError
  end.

Definition sanitizeEmail `{StringPrototype} (email : value)
  : result jstring :=
  match email with
  | VStr s => Ok (trim (toLowerCase s))
  | _ => Throw TypeError
  end.

(** ** The inquiry records *)

Module InquiryFormData.
Record t := mk {
  parentName : jstring;
  childName : jstring;
  childAge : number;
  email : jstring;
  phone : jstring;
  preferredProgram : jstring;
  message : option jstring
}.
End InquiryFormData.

Module FormattedInquiry.
Record t := mk {
  parentName : jstring;
  childName : jstring;
  childAge : number;
  email : jstring;
  phone : jstring;
  preferredProgram : jstring;
  message : jstring;
  formattedText : jstring
}.
End FormattedInquiry.

(** ** Format inquiry for Telegram *)

Definition programNames : gmap jstring jstring :=
  list_to_map
    [ (lit "toddlers", lit "Toddlers (Ages 2-3)");
      (lit "preschool", lit "Preschool (Ages 4-5)");
      (lit "lower-elementary", lit "Lower Elementary (Ages 6-8)");
      (lit "upper-elementary", lit "Upper Elementary (Ages 9-12)");
      (lit "not-sure", lit "Not sure yet");
      (lit "", lit "Not specified") ].

Definition programName (data : InquiryFormData.t) : property :=
  orElse (getProperty programNames (InquiryFormData.preferredProgram data))
         (InquiryFormData.preferredProgram data).

Definition noMessage : jstring := lit "No additional message provided.".

(** [data.message || '...']: an absent or empty message is replaced. *)
Definition messageOf (data : InquiryFormData.t) : jstring :=
  match InquiryFormData.message data with
  | None | Some [] => noMessage
  | Some m => m
  end.

(** The emoji and the bullet of the template, as code units. *)
Definition books : jstring := [55357; 56538].
Definition family : jstring :=
  [55357; 56424; 8205; 55357; 56425; 8205; 55357; 56423].
Definition baby : jstring := [55357; 56438].
Definition openBook : jstring := [55357; 56534].
Definition speech : jstring := [55357; 56492].
Definition bullet : jstring := [8226].
Definition nl : jstring := [10].

(** The template literal before [.trim()]. [now] is the text of
    [new Date().toLocaleString('ja-JP', { timeZone: 'Asia/Tokyo' })]. *)
Definition template (now : jstring) (data : InquiryFormData.t) : jstring :=
  concat
    [ nl; books; lit " *New Inquiry - Kumagaya Kids English*"; nl; nl;
      family; lit " *Parent Information:*"; nl;
      bullet; lit " Name: "; InquiryFormData.parentName data; nl;
      bullet; lit " Email: "; InquiryFormData.email data; nl;
      bullet; lit " Phone: "; InquiryFormData.phone data; nl; nl;
      baby; lit " *Child Information:*"; nl;
      bullet; lit " Name: "; InquiryFormData.childName data; nl;
      bullet; lit " Age: "; showNumber (InquiryFormData.childAge data);
      lit " years old"; nl; nl;
      openBook; lit " *Program Interest:*"; nl;
      toText (programName data); nl; nl;
      speech; lit " *Message:*"; nl;
      messageOf data; nl; nl;
      lit "---"; nl;
      lit "_Received at "; now; lit "_"; nl; lit "    " ].

Definition formatInquiry (now : jstring) (data : InquiryFormData.t)
  : FormattedInquiry.t :=
  {| FormattedInquiry.parentName := InquiryFormData.parentName data;
     FormattedInquiry.childName := InquiryFormData.childName data;
     FormattedInquiry.childAge := InquiryFormData.childAge data;
     FormattedInquiry.email := InquiryFormData.email data;
     FormattedInquiry.phone := InquiryFormData.phone data;
     FormattedInquiry.preferredProgram :=
       InquiryFormData.preferredProgram data;
     FormattedInquiry.message := messageOf data;
     FormattedInquiry.formattedText := trim (template now data) |}.

(** ** The request body and the validation rules *)

(** [req.body], read at the types [InquiryFormData] declares, each field
    possibly absent. [childAge] is kept as a runtime value: a JSON body
    carries it as a number, a url-encoded form as text, and the handler
    converts it with [toString] and [parseInt]. Arrays and objects as field
    values are outside the declared types and outside the embedding. *)
Module Body.
Record t := mk {
  parentName : option jstring;
  childName : option jstring;
  childAge : value;
  email : option jstring;
  phone : option jstring;
  preferredProgram : option jstring;
  message : option jstring
}.
End Body.

(** A field of the body as a value: an absent field reads [undefined]. *)
Definition ofField (f : option jstring) : value :=
  match f with
  | Some s => VStr s
  | None => VUndefined
  end.

(** express-validator's [toString], applied to a field before a standard
    validator or sanitizer runs on it. *)
Definition stringify (v : value) : jstring :=
  match v with
  | VUndefined | VNull => []
  | VBool true => lit "true"
  | VBool false => lit "false"
  | VNum n => showInt n
  | VStr s => s
  end.

(** An entry of [errors.array()]: the field and the message of the failed
    rule (the library's objects also carry the rejected value and its
    location). *)
Record ValidationError := mkError { field : jstring; msg : jstring }.

(** One validator of a chain: an error with the chain's message when the
    test fails; the chain goes on either way. *)
Definition check (field msg : string) (ok : bool) : list ValidationError :=
  if ok then [] else [mkError (lit field) (lit msg)].

(** *** validator.js *)

Definition isEmpty (str : jstring) : bool :=
  match str with [] => true | _ => false end.

Definition isHighSurrogate (c : N) : bool := inRange 55296 56319 c.
Definition isLowSurrogate (c : N) : bool := inRange 56320 57343 c.

Fixpoint surrogatePairs (str : jstring) : nat :=
  match str with
  | [] => 0%nat
  | a :: t =>
      match t with
      | b :: t' =>
          if isHighSurrogate a && isLowSurrogate b
          then S (surrogatePairs t') else surrogatePairs t
      | [] => 0%nat
      end
  end.

Definition presentationSequences (str : jstring) : nat :=
  length (List.filter (fun c => (c =? 65039) || (c =? 65038)) str).

(** [isLength(str, {min, max})]: a surrogate pair counts once and a
    variation selector not at all. *)
Definition isLength (min : nat) (max : option nat) (str : jstring) : bool :=
  let len :=
    (length str - presentationSequences str - surrogatePairs str)%nat in
  (min <=? len)%nat
  && match max with Some m => (len <=? m)%nat | None => true end.

(** The integer a string denotes when it matches [/^[-+]?[0-9]+$/]. *)
Definition integerLiteral (str : jstring) : option Z :=
  let '(neg, ds) := splitSign str in
  if negb (isEmpty ds) && forallb isDigit ds
  then Some (let z := Z.of_uint (readDigits ds) in if neg then (- z)%Z else z)
  else None.

(** [isInt(str, {min, max})]. *)
Definition isInt (min max : Z) (str : jstring) : bool :=
  match integerLiteral str with
  | Some n => (min <=? n)%Z && (n <=? max)%Z
  | None => false
  end.

(** [isIn(str, values)]. *)
Definition isIn (values : list jstring) (str : jstring) : bool :=
  bool_decide (str ∈ values).

(** [/^[a-zA-Z\s\u3040-\u309F\u30A0-\u30FF\u4E00-\u9FAF]+$/] *)
Definition isNameChar (c : N) : bool :=
  inRange 97 122 c || inRange 65 90 c || isWhiteSpace c
  || inRange 12352 12447 c || inRange 12448 12543 c || inRange 19968 40879 c.

Definition nameRegex (str : jstring) : bool :=
  negb (isEmpty str) && forallb isNameChar str.

(** [/^[\d+\-() ]{10,20}$/] *)
Definition phoneRegex (str : jstring) : bool :=
  (10 <=? length str)%nat && (length str <=? 20)%nat
  && forallb isPhoneChar str.

(** The two functions of validator.js that are not written out.
    [normalizeEmail] returns the normalized address, or [false] ([None])
    when it gives the address up, as it does for a Gmail address whose
    name is empty once the sub-address is dropped. *)
Class ValidatorLib := {
  isEmail : jstring -> bool;
  normalizeEmail : jstring -> option jstring
}.

(** *** Validation rules *)

Definition programKeys : list jstring :=
  [ lit "toddlers"; lit "preschool"; lit "lower-elementary";
    lit "upper-elementary"; lit "not-sure"; lit "" ].

Definition parentNameRules (v : option jstring)
  : option jstring * list ValidationError :=
  let s := trim (stringify (ofField v)) in
  (Some s,
   check "parentName" "Parent name is required" (negb (isEmpty s))
   ++ check "parentName" "Parent name must be between 2 and 100 characters"
        (isLength 2 (Some 100%nat) s)
   ++ check "parentName" "Parent name contains invalid characters"
        (nameRegex s)).

Definition childNameRules (v : option jstring)
  : option jstring * list ValidationError :=
  let s := trim (stringify (ofField v)) in
  (Some s,
   check "childName" "Child name is required" (negb (isEmpty s))
   ++ check "childName" "Child name must be between 2 and 100 characters"
        (isLength 2 (Some 100%nat) s)
   ++ check "childName" "Child name contains invalid characters"
        (nameRegex s)).

Definition childAgeRules (v : value) : value * list ValidationError :=
  (v,
   check "childAge" "Child age must be between 2 and 12 years"
     (isInt 2 12 (stringify v))).

Definition emailRules `{ValidatorLib} (v : option jstring)
  : value * list ValidationError :=
  let s := trim (stringify (ofField v)) in
  (match normalizeEmail s with
   | Some normalized => VStr normalized
   | None => VBool false
   end,
   check "email" "Email is required" (negb (isEmpty s))
   ++ check "email" "Please provide a valid email address" (isEmail s)).

Definition phoneRules (v : option jstring)
  : option jstring * list ValidationError :=
  let s := trim (stringify (ofField v)) in
  (Some s,
   check "phone" "Phone number is required" (negb (isEmpty s))
   ++ check "phone" "Please provide a valid phone number" (phoneRegex s)).

(** [.optional()]: an absent field skips the whole chain. *)
Definition preferredProgramRules (v : option jstring)
  : option jstring * list ValidationError :=
  match v with
  | None => (None, [])
  | Some s =>
      (Some s,
       check "preferredProgram" "Invalid program selection"
         (isIn programKeys s))
  end.

Definition messageRules (v : option jstring)
  : option jstring * list ValidationError :=
  match v with
  | None => (None, [])
  | Some m =>
      let s := trim m in
      (Some s,
       check "message" "Message must not exceed 1000 characters"
         (isLength 0 (Some 1000%nat) s))
  end.

(** [req.body] once the chains have run: the sanitizers have written their
    results back, so [email] holds what [normalizeEmail] returned, a string
    or [false]. *)
Module RawData.
Record t := mk {
  parentName : option jstring;
  childName : option jstring;
  childAge : value;
  email : value;
  phone : option jstring;
  preferredProgram : option jstring;
  message : option jstring
}.
End RawData.

(** The chains run in the order of the array; each writes its sanitized
    value back into the body and adds its errors to the request. *)
Definition inquiryValidation `{ValidatorLib} (body : Body.t)
  : RawData.t * list ValidationError :=
  let '(parentName, e1) := parentNameRules (Body.parentName body) in
  let '(childName, e2) := childNameRules (Body.childName body) in
  let '(childAge, e3) := childAgeRules (Body.childAge body) in
  let '(email, e4) := emailRules (Body.email body) in
  let '(phone, e5) := phoneRules (Body.phone body) in
  let '(preferredProgram, e6) :=
    preferredProgramRules (Body.preferredProgram body) in
  let '(message, e7) := messageRules (Body.message body) in
  (RawData.mk parentName childName childAge email phone preferredProgram
     message,
   e1 ++ e2 ++ e3 ++ e4 ++ e5 ++ e6 ++ e7).

Definition validationResult `{ValidatorLib} (body : Body.t)
  : list ValidationError :=
  snd (inquiryValidation body).

(** ** The outside world *)

(** What the process reads from its surroundings during one request: the
    configuration, the outcome of the call to the Telegram Bot API
    ([None] when [axios.post] rejects: network error, timeout, or a status
    axios refuses) and the text of the clock. *)
Record world := mkWorld {
  TELEGRAM_BOT_TOKEN : jstring;
  TELEGRAM_CHAT_ID : jstring;
  telegramReply : option Z;
  now : jstring
}.

Inductive event :=
| HttpPost (url chat_id text parse_mode : jstring) (timeout : Z)
| ConsoleLog (line : jstring)
| ConsoleError (line : jstring)
| SetTimeout (ms : Z).

(** ** Send to Telegram Bot API *)

Definition sendToTelegram (w : world) (formattedInquiry : FormattedInquiry.t)
  : bool * list event :=
  let post :=
    HttpPost
      (lit "https://api.telegram.org/bot" ++ TELEGRAM_BOT_TOKEN w
       ++ lit "/sendMessage")
      (TELEGRAM_CHAT_ID w)
      (FormattedInquiry.formattedText formattedInquiry)
      (lit "Markdown") 10000 in
  match telegramReply w with
  | Some status => ((status =? 200)%Z, [post])
  | None => (false, [post; ConsoleError (lit "Telegram API Error:")])
  end.

(** ** Simulate sending confirmation email *)

Definition envelope : jstring := [55357; 56551].

Definition sendConfirmationEmail (email childName : jstring)
  : bool * list event :=
  (true,
   [ ConsoleLog (envelope ++ lit " [SIMULATED] Sending confirmation email to "
                 ++ email);
     ConsoleLog (envelope ++ lit " [SIMULATED] Subject: Thank you for your inquiry - Kumagaya Kids English");
     ConsoleLog (envelope ++ lit " [SIMULATED] Body: Dear Parent, Thank you for your interest in Kumagaya Kids English. We have received your inquiry for "
                 ++ childName ++ lit " and will contact you within 24 hours.");
     SetTimeout 500 ]).

(** ** API route: submit inquiry *)

Record ApiResponse := mkApiResponse {
  success : bool;
  message : option jstring;
  error : option jstring;
  errors : option (list ValidationError)
}.

Record response := mkResponse { status : Z; json : ApiResponse }.

Definition validationFailed (errs : list ValidationError) : response :=
  mkResponse 400
    (mkApiResponse false None (Some (lit "Validation failed")) (Some errs)).

Definition received : response :=
  mkResponse 200
    (mkApiResponse true
       (Some (lit "Thank you! Your inquiry has been received. We will contact you within 24 hours."))
       None None).

Definition serverError : response :=
  mkResponse 500
    (mkApiResponse false None
       (Some (lit "An internal server error occurred. Please try again later."))
       None).

(** The object literal [sanitizedData]; its initializers run in order and
    the first one that raises aborts the construction. *)
Definition sanitizedData `{StringPrototype} (rawData : RawData.t)
  : result InquiryFormData.t :=
  let parentName := sanitizeInput (ofField (RawData.parentName rawData)) in
  let childName := sanitizeInput (ofField (RawData.childName rawData)) in
  age ← toStringMethod (RawData.childAge rawData);
  email ← sanitizeEmail (RawData.email rawData);
  phone ← sanitizePhone (ofField (RawData.phone rawData));
  mret (InquiryFormData.mk parentName childName (parseInt age) email phone
          match RawData.preferredProgram rawData with
          | None | Some [] => []
          | Some p => p
          end
          (Some match RawData.message rawData with
                | None | Some [] => []
                | Some m => sanitizeInput (VStr m)
                end)).

(** [app.post('/api/inquiry', inquiryValidation, handler)]: the response and
    what was done to the outside, in order. *)
Definition postInquiry `{StringPrototype} `{ValidatorLib} (w : world)
  (body : Body.t) : response * list event :=
  let '(rawData, errs) := inquiryValidation body in
  match errs with
  | _ :: _ => (validationFailed errs, [])
  | [] =>
      match sanitizedData rawData with
      | Throw _ => (serverError, [ConsoleError (lit "Server Error:")])
      | Ok data =>
          let formattedInquiry := formatInquiry (now w) data in
          let '(telegramSuccess, t1) := sendToTelegram w formattedInquiry in
          let t2 :=
            if telegramSuccess then []
            else [ConsoleError (lit "Failed to send to Telegram")] in
          let '(emailSuccess, t3) :=
            sendConfirmationEmail (InquiryFormData.email data)
              (InquiryFormData.childName data) in
          let t4 :=
            if emailSuccess then []
            else [ConsoleError (lit "Failed to send confirmation email")] in
          (received, t1 ++ t2 ++ t3 ++ t4)
      end
  end.

Definition notAt (c : N) : bool := negb (c =? 64).

(** A stand-in for [normalizeEmail], to run the model on concrete requests.
    The address is split at its last [@] and lower-cased; of a Gmail
    address the sub-address after [+] and the full stops are dropped, and
    the answer is [false] when no name is left, which is what validator.js
    answers for [+x@gmail.com]. The rules of validator.js for other
    providers are not reproduced. *)
Definition sampleNormalizeEmail (email : jstring) : option jstring :=
  let domain := List.map lowerUnit (rev (takeWhile notAt (rev email))) in
  let user := rev (tail (dropWhile notAt (rev email))) in
  if bool_decide (domain = lit "gmail.com")
     || bool_decide (domain = lit "googlemail.com")
  then
    match List.filter (fun c => negb (c =? 46))
            (takeWhile (fun c => negb (c =? 43)) user) with
    | [] => None
    | name => Some (List.map lowerUnit name ++ lit "@gmail.com")
    end
  else Some (List.map lowerUnit user ++ 64 :: domain).

(** A stand-in for the library: an address is a text with an [@]. *)
Definition sampleLib : ValidatorLib :=
  {| isEmail := fun s => bool_decide (64 ∈ s);
     normalizeEmail := sampleNormalizeEmail |}.

Definition sampleWorld : world :=
  mkWorld (lit "YOUR_TELEGRAM_BOT_TOKEN") (lit "YOUR_TELEGRAM_CHAT_ID") None
    (lit "2026/1/1 10:00:00").

(** The end-to-end scenario of the specification. *)
Definition sampleBody : Body.t :=
  Body.mk (Some (lit "Jane Doe")) (Some (lit "Tom Doe")) (VNum 5)
    (Some (lit "A@Example.com")) (Some (lit "+81-90-1234-5678"))
    (Some (lit "toddlers")) (Some []).

Definition emptyBody : Body.t :=
  Body.mk None None VUndefined None None None None.

(** The end-to-end scenario with an address validator.js accepts and then
    normalizes to [false]. *)
Definition subAddressBody : Body.t :=
  Body.mk (Some (lit "Jane Doe")) (Some (lit "Tom Doe")) (VNum 5)
    (Some (lit "+x@gmail.com")) (Some (lit "+81-90-1234-5678"))
    (Some (lit "toddlers")) (Some []).

(** ** Notions of the specification *)

(** What the specification asks of the sanitized text, code unit by code
    unit: angle brackets disappear, the ampersand and the two quotes become
    their entity, everything else stays. *)
Definition entityOf (c : N) : jstring :=
  if isAngle c then []
  else if c =? 38 then lit "&amp;"
  else if c =? 34 then lit "&quot;"
  else if c =? 39 then lit "&#x27;"
  else [c].


(** The fixed structure of the notification: the template without the
    white space around it. *)
Definition rendered (now : jstring) (data : InquiryFormData.t) : jstring :=
  concat
    [ books; lit " *New Inquiry - Kumagaya Kids English*"; nl; nl;
      family; lit " *Parent Information:*"; nl;
      bullet; lit " Name: "; InquiryFormData.parentName data; nl;
      bullet; lit " Email: "; InquiryFormData.email data; nl;
      bullet; lit " Phone: "; InquiryFormData.phone data; nl; nl;
      baby; lit " *Child Information:*"; nl;
      bullet; lit " Name: "; InquiryFormData.childName data; nl;
      bullet; lit " Age: "; showNumber (InquiryFormData.childAge data);
      lit " years old"; nl; nl;
      openBook; lit " *Program Interest:*"; nl;
      toText (programName data); nl; nl;
      speech; lit " *Message:*"; nl;
      messageOf data; nl; nl;
      lit "---"; nl;
      lit "_Received at "; now; lit "_" ].

(** The integer a submitted age stands for, if any. *)
Definition integerValue (v : value) : option Z :=
  match v with
  | VNum n => Some n
  | VStr s => integerLiteral s
  | _ => None
  end.

(** No error of the validation result is about the field. *)
Definition fieldPasses `{ValidatorLib} (name : string) (body : Body.t) : Prop :=
  Forall (fun e => field e <> lit name) (validationResult body).

(** ** Environment variables and start-up *)

(** [process.env.NAME || fallback]: an unset or empty variable gives the
    fallback. *)
Definition envOr (v : option jstring) (fallback : jstring) : jstring :=
  match v with
  | None | Some [] => fallback
  | Some s => s
  end.

Module ProcessEnv.
Record t := mk {
  TELEGRAM_BOT_TOKEN : option jstring;
  TELEGRAM_CHAT_ID : option jstring;
  PORT : option jstring
}.
End ProcessEnv.

Definition tokenPlaceholder : jstring := lit "YOUR_TELEGRAM_BOT_TOKEN".
Definition chatIdPlaceholder : jstring := lit "YOUR_TELEGRAM_CHAT_ID".

Definition botTokenOf (env : ProcessEnv.t) : jstring :=
  envOr (ProcessEnv.TELEGRAM_BOT_TOKEN env) tokenPlaceholder.

Definition chatIdOf (env : ProcessEnv.t) : jstring :=
  envOr (ProcessEnv.TELEGRAM_CHAT_ID env) chatIdPlaceholder.

(** [`${PORT}`], where [PORT] is the variable or the number 3000. *)
Definition portOf (env : ProcessEnv.t) : jstring :=
  envOr (ProcessEnv.PORT env) (lit "3000").

(** The world of a request served by a process started in [env]. *)
Definition worldOf (env : ProcessEnv.t) (reply : option Z) (clock : jstring)
  : world :=
  mkWorld (botTokenOf env) (chatIdOf env) reply clock.

Inductive consoleLine :=
| Logged (line : jstring)
| Warned (line : jstring).

Definition rocket : jstring := [55357; 56960].
Definition warningSign : jstring := [9888; 65039].

Definition tokenWarning : consoleLine :=
  Warned (warningSign ++ lit "  Warning: Telegram Bot Token not configured. Set TELEGRAM_BOT_TOKEN environment variable.").

Definition chatIdWarning : consoleLine :=
  Warned (warningSign ++ lit "  Warning: Telegram Chat ID not configured. Set TELEGRAM_CHAT_ID environment variable.").

(** The callback of [app.listen]. *)
Definition onListen (env : ProcessEnv.t) : list consoleLine :=
  [ Logged (rocket ++ lit " Server running on http://localhost:"
            ++ portOf env);
    Logged (books ++ lit " Kumagaya Kids English API is ready!") ]
  ++ (if decide (botTokenOf env = tokenPlaceholder) then [tokenWarning]
      else [])
  ++ (if decide (chatIdOf env = chatIdPlaceholder) then [chatIdWarning]
      else []).

(** ** The inquiry form in the browser *)

(** The [value] of each input of the form when it is submitted. *)
Module Form.
Record t := mk {
  parentName : jstring;
  childName : jstring;
  childAge : jstring;
  email : jstring;
  phone : jstring;
  interest : jstring;
  message : jstring
}.
End Form.

(** The class [[^\\s@]]. *)
Definition notSpaceOrAt (c : N) : bool :=
  negb (isWhiteSpace c) && negb (c =? 64).

(** Some code unit other than the first and the last is a full stop. *)
Definition innerDot (domain : jstring) : bool :=
  match domain with
  | [] => false
  | _ :: t => existsb (fun c => c =? 46) (removelast t)
  end.

(** [/^[^\\s@]+@[^\\s@]+\\.[^\\s@]+$/.test(s)]: the run before the first
    code unit outside the class is not empty and is followed by an [@];
    what follows has no code unit outside the class and a full stop
    strictly inside. *)
Definition emailPattern (s : jstring) : bool :=
  match dropWhile notSpaceOrAt s with
  | [] => false
  | c :: domain =>
      (c =? 64) && negb (isEmpty (takeWhile notSpaceOrAt s))
      && forallb notSpaceOrAt domain && innerDot domain
  end.

(** One test of [validateForm]: a failing test shows its message under the
    field and clears [isValid]. *)
Definition complain (bad : bool) (fieldId message : string)
  (st : bool * list (jstring * jstring)) : bool * list (jstring * jstring) :=
  if bad then (false, snd st ++ [(lit fieldId, lit message)]) else st.

(** [!childAge || childAge < 2 || childAge > 12] *)
Definition ageRefused (childAge : number) : bool :=
  match childAge with
  | NaN => true
  | Int z => (z =? 0)%Z || (z <? 2)%Z || (12 <? z)%Z
  end.

(** Client-side validation: whether the form may be sent, and the calls to
    [showError] in order. *)
Definition validateForm (f : Form.t) : bool * list (jstring * jstring) :=
  let parentName := trim (Form.parentName f) in
  let childName := trim (Form.childName f) in
  let childAge := parseInt (Form.childAge f) in
  let email := trim (Form.email f) in
  let phone := trim (Form.phone f) in
  complain (isEmpty phone || (length phone <? 10)%nat)
    "phone" "Please enter a valid phone number"
    (complain (isEmpty email || negb (emailPattern email))
       "email" "Please enter a valid email address"
       (complain (ageRefused childAge)
          "child-age" "Please enter a valid age between 2 and 12"
          (complain (isEmpty childName || (length childName <? 2)%nat)
             "child-name"
             "Please enter child's name (at least 2 characters)"
             (complain (isEmpty parentName || (length parentName <? 2)%nat)
                "parent-name"
                "Please enter parent/guardian name (at least 2 characters)"
                (true, []))))).

(** The object [formData] as the server reads it from the JSON body
    ([JSON.stringify] writes [NaN] as [null]). *)
Definition formData (f : Form.t) : Body.t :=
  Body.mk (Some (trim (Form.parentName f)))
    (Some (trim (Form.childName f)))
    match parseInt (Form.childAge f) with
    | Int n => VNum n
    | NaN => VNull
    end
    (Some (trim (Form.email f)))
    (Some (trim (Form.phone f)))
    (Some (Form.interest f))
    (Some (trim (Form.message f))).

(** What [fetch] comes back with. *)
Inductive fetchOutcome :=
| NetworkError
| Replied (r : response).

(** The message box under the form. *)
Record formMessage := mkFormMessage {
  textContent : jstring;
  className : jstring
}.

Definition correctTheErrors : jstring :=
  lit "Please correct the errors in the form.".

(** The message box after the reply has been handled (the errors shown
    under the single fields and the state of the button are not part of
    the embedding). *)
Definition afterFetch (o : fetchOutcome) : formMessage :=
  match o with
  | NetworkError =>
      mkFormMessage
        (lit "Unable to send inquiry. Please check your connection and try again.")
        (lit "form-message error")
  | Replied r =>
      if (200 <=? status r)%Z && (status r <=? 299)%Z then
        mkFormMessage
          match message (json r) with
          | None | Some [] =>
              lit "Thank you! Your inquiry has been sent successfully. We will contact you within 24 hours."
          | Some m => m
          end
          (lit "form-message success")
      else
        mkFormMessage
          match errors (json r) with
          | Some _ => correctTheErrors
          | None =>
              match error (json r) with
              | None | Some [] =>
                  lit "There was an error sending your inquiry. Please try again."
              | Some e => e
              end
          end
          (lit "form-message error")
  end.

(** The submit handler: the request that leaves the browser, if any, and
    the message box at the end. [server] is what answers the request. *)
Definition onSubmit (server : Body.t -> fetchOutcome) (f : Form.t)
  : option Body.t * formMessage :=
  if fst (validateForm f) then
    (Some (formData f), afterFetch (server (formData f)))
  else (None, mkFormMessage correctTheErrors (lit "form-message error")).

(** ** The navigation menu *)

(** What the handlers read and write: the [aria-expanded] attribute of the
    button (whether it is the text [true]), the class [active] of the menu
    and the [overflow: hidden] of the page. *)
Record menu := mkMenu {
  ariaExpanded : bool;
  navActive : bool;
  scrollLocked : bool
}.

Definition closedMenu : menu := mkMenu false false false.

(** Where a click lands: on the button, on a link of the menu, elsewhere
    inside the menu, or outside both (the button is taken to lie outside
    the menu). *)
Inductive clickTarget := OnHamburger | OnNavLink | InsideNav | Outside.

Inductive menuEvent :=
| Click (target : clickTarget) (innerWidth : Z)
| Resize (innerWidth : Z)
| KeyDown (key : jstring).

(** The listeners a DOM event reaches, in the order of bubbling; the second
    component tells whether the button was given the focus. *)
Definition menuStep (m : menu) (ev : menuEvent) : menu * bool :=
  match ev with
  | Click OnHamburger _ =>
      (mkMenu (negb (ariaExpanded m)) (negb (navActive m))
         (negb (ariaExpanded m)), false)
  | Click OnNavLink w => (if (w <? 768)%Z then closedMenu else m, false)
  | Click InsideNav _ => (m, false)
  | Click Outside w =>
      (if (w <? 768)%Z && navActive m then closedMenu else m, false)
  | Resize w => (if (768 <=? w)%Z then closedMenu else m, false)
  | KeyDown key =>
      if bool_decide (key = lit "Escape") && navActive m
      then (closedMenu, true) else (m, false)
  end.

Definition menuRun (m : menu) (evs : list menuEvent) : menu :=
  fold_left (fun st ev => fst (menuStep st ev)) evs m.

(** The three parts of the state agree. *)
Definition menuConsistent (m : menu) : Prop :=
  ariaExpanded m = navActive m /\ scrollLocked m = navActive m.

(** ** Counting *)

(** How often a code unit occurs in a string. *)
Definition occ (c : N) (s : jstring) : nat := count_occ N.eq_dec s c.

Definition isHttpPost (e : event) : bool :=
  match e with
  | HttpPost _ _ _ _ _ => true
  | _ => false
  end.

(** The messages with which the server reports a required field as
    missing. *)
Definition requiredMessages : list jstring :=
  [ lit "Parent name is required"; lit "Child name is required";
    lit "Email is required"; lit "Phone number is required" ].

(** A filled-in form: the end-to-end scenario as typed by a visitor. *)
Definition sampleForm : Form.t :=
  Form.mk (lit " Jane Doe ") (lit "Tom Doe") (lit "5")
    (lit "A@Example.com") (lit "+81-90-1234-5678") (lit "toddlers") [].

(** * Properties *)

(** ** Strings *)

Lemma dropWhile_idem p s : dropWhile p (dropWhile p s) = dropWhile p s.
Proof.
  induction s as [|c t IH]; simpl; [reflexivity|].
  destruct (p c) eqn:E; [exact IH|]. simpl. now rewrite E.
Qed.

Lemma takeWhile_dropWhile p s : takeWhile p s ++ dropWhile p s = s.
Proof.
  induction s as [|c t IH]; simpl; [reflexivity|].
  destruct (p c); simpl; [now rewrite IH | reflexivity].
Qed.

Lemma takeWhile_forallb p s : forallb p (takeWhile p s) = true.
Proof.
  induction s as [|c t IH]; [reflexivity|]. simpl.
  destruct (p c) eqn:E; [|reflexivity]. simpl. now rewrite E.
Qed.

Lemma forallb_rev (p : N -> bool) s : forallb p (rev s) = forallb p s.
Proof.
  induction s as [|c t IH]; [reflexivity|]. simpl.
  rewrite forallb_app, IH. simpl. rewrite andb_true_r. apply andb_comm.
Qed.

Lemma dropWhile_head p s c t : dropWhile p s = c :: t -> p c = false.
Proof.
  induction s as [|a s IH]; simpl; [discriminate|].
  destruct (p a) eqn:E; [exact IH|]. intros [= <- _]. exact E.
Qed.


Lemma dropWhile_fixed p c t : p c = false -> dropWhile p (c :: t) = c :: t.
Proof. intros E. simpl. now rewrite E. Qed.

Lemma trimEnd_prefix s : exists w, s = trimEnd s ++ w.
Proof.
  exists (rev (takeWhile isWhiteSpace (rev s))). unfold trimEnd.
  rewrite <- rev_app_distr, takeWhile_dropWhile. now rewrite rev_involutive.
Qed.

Lemma trimEnd_idem s : trimEnd (trimEnd s) = trimEnd s.
Proof. unfold trimEnd. now rewrite rev_involutive, dropWhile_idem. Qed.

Lemma trimStart_trimEnd s :
  trimStart s = s -> trimStart (trimEnd s) = trimEnd s.
Proof.
  intros Hs. destruct (trimEnd_prefix s) as [w Hw].
  destruct (trimEnd s) as [|c u] eqn:E; [reflexivity|].
  unfold trimStart. apply dropWhile_fixed.
  rewrite Hw in Hs. unfold trimStart in Hs. simpl app in Hs.
  exact (dropWhile_head _ _ _ _ Hs).
Qed.

Lemma trim_idem s : trim (trim s) = trim s.
Proof.
  unfold trim. rewrite trimStart_trimEnd.
  - apply trimEnd_idem.
  - apply dropWhile_idem.
Qed.

(** Settle every comparison of the goal that the hypotheses decide. *)
Ltac settle_cmp :=
  repeat match goal with
  | |- context [(?a <=? ?b)%N] =>
      first [ rewrite (proj2 (N.leb_le a b)) by lia
            | rewrite (proj2 (N.leb_gt a b)) by lia ]
  | |- context [(?a =? ?b)%N] =>
      first [ rewrite (proj2 (N.eqb_eq a b)) by lia
            | rewrite (proj2 (N.eqb_neq a b)) by lia ]
  end.






(** ** Sanitizers *)

Lemma replaceAll_cons cls fn c t :
  replaceAll cls fn (c :: t)
  = (if cls c then fn c else [c]) ++ replaceAll cls fn t.
Proof. reflexivity. Qed.

Lemma escape_after_strip t :
  replaceAll isHtmlSpecial escapeChar (replaceAll isAngle (fun _ => []) t)
  = flat_map entityOf t.
Proof.
  induction t as [|c t IH]; [reflexivity|].
  rewrite replaceAll_cons. simpl flat_map. rewrite <- IH. unfold entityOf.
  destruct (isAngle c) eqn:EA; [reflexivity|].
  simpl app. rewrite replaceAll_cons. f_equal.
  unfold isAngle in EA. apply orb_false_elim in EA as [E60 E62].
  unfold isHtmlSpecial. rewrite E60, E62. simpl.
  destruct (N.eqb_spec c 38) as [->|]; [reflexivity|].
  destruct (N.eqb_spec c 34) as [->|]; [reflexivity|].
  destruct (N.eqb_spec c 39) as [->|]; reflexivity.
Qed.




(** ** The formatter *)

Lemma dropWhile_app_keep p a b :
  dropWhile p a <> [] -> dropWhile p (a ++ b) = dropWhile p a ++ b.
Proof.
  induction a as [|c a IH]; simpl; [congruence|].
  destruct (p c); [exact IH | reflexivity].
Qed.

Lemma trimEnd_app_keep x y :
  trimEnd y <> [] -> trimEnd (x ++ y) = x ++ trimEnd y.
Proof.
  unfold trimEnd. intros Hy. rewrite rev_app_distr, dropWhile_app_keep.
  - now rewrite rev_app_distr, rev_involutive.
  - intros E. apply Hy. now rewrite E.
Qed.

Lemma trimEnd_app_inked x y : trimEnd y <> [] -> trimEnd (x ++ y) <> [].
Proof.
  intros Hy. rewrite trimEnd_app_keep by exact Hy.
  intros E. apply app_eq_nil in E as [_ E]. exact (Hy E).
Qed.

Lemma trimStart_skip w r :
  forallb isWhiteSpace w = true -> trimStart (w ++ r) = trimStart r.
Proof.
  unfold trimStart. induction w as [|c w IH]; simpl; [reflexivity|].
  intros H. apply andb_prop in H as [-> H]. exact (IH H).
Qed.

Lemma trimStart_keep c e r :
  isWhiteSpace c = false -> trimStart ((c :: e) ++ r) = (c :: e) ++ r.
Proof. intros H. unfold trimStart. simpl. now rewrite H. Qed.

Lemma trim_template now data : trim (template now data) = rendered now data.
Proof.
  unfold trim, template, rendered. cbn [concat].
  rewrite trimStart_skip by reflexivity.
  unfold books at 1. rewrite trimStart_keep by reflexivity.
  assert (Htail : trimEnd (lit "_" ++ nl ++ lit "    " ++ []) <> [])
    by (vm_compute; discriminate).
  repeat (rewrite trimEnd_app_keep
            by (repeat first [exact Htail | apply trimEnd_app_inked])).
  reflexivity.
Qed.

Lemma includes_concat (pre : list jstring) t (post : list jstring) :
  includes (concat (pre ++ t :: post)) t.
Proof.
  exists (concat pre), (concat post). now rewrite concat_app.
Qed.

(** ** Numerals *)

Lemma readDigits_showDigits d : readDigits (showDigits d) = d.
Proof. induction d; simpl; [reflexivity | rewrite IHd; reflexivity ..]. Qed.

Lemma showDigits_digits d : forallb isDigit (showDigits d) = true.
Proof. induction d; simpl; [reflexivity | exact IHd ..]. Qed.

Lemma showDigits_nonempty d : d <> Decimal.Nil -> isEmpty (showDigits d) = false.
Proof. destruct d; [contradiction | reflexivity ..]. Qed.

Lemma splitSign_digit s :
  forallb isDigit s = true -> splitSign s = (false, s).
Proof.
  destruct s as [|c t]; [reflexivity|]. simpl. intros H.
  apply andb_prop in H as [H _]. unfold isDigit, inRange in H.
  apply andb_prop in H as [H1 H2]. apply N.leb_le in H1, H2.
  settle_cmp. reflexivity.
Qed.

Lemma integerLiteral_unsigned d :
  d <> Decimal.Nil -> integerLiteral (showDigits d) = Some (Z.of_uint d).
Proof.
  intros Hd. unfold integerLiteral.
  rewrite splitSign_digit by apply showDigits_digits. cbv beta iota.
  now rewrite showDigits_nonempty, showDigits_digits, readDigits_showDigits.
Qed.

Lemma integerLiteral_negative d :
  d <> Decimal.Nil ->
  integerLiteral (45 :: showDigits d) = Some (- Z.of_uint d)%Z.
Proof.
  intros Hd. unfold integerLiteral. change (splitSign (45 :: showDigits d))
    with (true, showDigits d). cbv beta iota.
  now rewrite showDigits_nonempty, showDigits_digits, readDigits_showDigits.
Qed.

Lemma integerLiteral_showInt n : integerLiteral (showInt n) = Some n.
Proof.
  unfold showInt. rewrite <- (DecimalZ.of_to n) at 2.
  destruct n as [|p|p]; unfold Z.to_int, Z.of_int.
  - reflexivity.
  - apply integerLiteral_unsigned, Unsigned.to_uint_nonnil.
  - apply integerLiteral_negative, Unsigned.to_uint_nonnil.
Qed.

Lemma takeWhile_all p s : forallb p s = true -> takeWhile p s = s.
Proof.
  induction s as [|c t IH]; simpl; [reflexivity|].
  intros Hs. apply andb_prop in Hs as [-> Ht]. now rewrite IH.
Qed.

Lemma isDigit_range c : isDigit c = true -> 48 <= c <= 57.
Proof.
  unfold isDigit, inRange. intros Hc. apply andb_prop in Hc as [H1 H2].
  apply N.leb_le in H1, H2. lia.
Qed.

Lemma splitSign_inked s neg ds :
  splitSign s = (neg, ds) -> isEmpty ds = false ->
  forallb isDigit ds = true -> trimStart s = s.
Proof.
  destruct s as [|c t]; [reflexivity|]. unfold splitSign.
  intros Hs Hne Hds. apply dropWhile_fixed.
  destruct (N.eqb_spec c 45) as [->|]; [reflexivity|].
  destruct (N.eqb_spec c 43) as [->|]; [reflexivity|].
  injection Hs as _ <-. simpl in Hds. apply andb_prop in Hds as [Hc _].
  apply isDigit_range in Hc. unfold isWhiteSpace, inRange. settle_cmp.
  reflexivity.
Qed.

(** On a string the age rule accepts, [parseInt] returns the integer the
    rule compared with the bounds. *)
Lemma parseInt_integerLiteral s n : integerLiteral s = Some n -> parseInt s = Int n.
Proof.
  unfold integerLiteral, parseInt.
  destruct (splitSign s) as [neg ds] eqn:Hs.
  destruct (isEmpty ds) eqn:Hne; [discriminate|].
  destruct (forallb isDigit ds) eqn:Hds; [|discriminate].
  simpl. intros [= <-].
  rewrite (splitSign_inked _ _ _ Hs Hne Hds), Hs, (takeWhile_all _ _ Hds).
  destruct ds as [|z [|x t]]; [discriminate | reflexivity |].
  simpl in Hds. apply andb_prop in Hds as [_ Hx].
  apply andb_prop in Hx as [Hx _]. apply isDigit_range in Hx.
  replace ((x =? 120) || (x =? 88)) with false by (settle_cmp; reflexivity).
  now rewrite andb_false_r.
Qed.

(** ** Validation *)

Lemma check_nil f m ok : check f m ok = [] <-> ok = true.
Proof. destruct ok; simpl; split; congruence. Qed.

Lemma check_field f m ok : Forall (fun e => field e = lit f) (check f m ok).
Proof. destruct ok; repeat constructor. Qed.

Lemma check_passes f m ok :
  Forall (fun e => field e <> lit f) (check f m ok) <-> ok = true.
Proof.
  destruct ok; simpl; split; intros H; try constructor; try discriminate.
  inversion H as [|? ? Hf _]. now contradiction Hf.
Qed.

Lemma other_field (a b : string) l :
  lit a <> lit b ->
  Forall (fun e => field e = lit a) l -> Forall (fun e => field e <> lit b) l.
Proof. intros Hab. apply List.Forall_impl. intros e ->. exact Hab. Qed.

Lemma parentNameRules_fields v :
  Forall (fun e => field e = lit "parentName") (snd (parentNameRules v)).
Proof. unfold parentNameRules. simpl. rewrite !Forall_app. auto using check_field. Qed.

Lemma childNameRules_fields v :
  Forall (fun e => field e = lit "childName") (snd (childNameRules v)).
Proof. unfold childNameRules. simpl. rewrite !Forall_app. auto using check_field. Qed.

Lemma phoneRules_fields v :
  Forall (fun e => field e = lit "phone") (snd (phoneRules v)).
Proof. unfold phoneRules. simpl. rewrite !Forall_app. auto using check_field. Qed.

Lemma preferredProgramRules_fields v :
  Forall (fun e => field e = lit "preferredProgram")
    (snd (preferredProgramRules v)).
Proof. destruct v; simpl; auto using check_field. Qed.

Lemma messageRules_fields v :
  Forall (fun e => field e = lit "message") (snd (messageRules v)).
Proof. destruct v; simpl; auto using check_field. Qed.

Lemma preferredProgramRules_value v : fst (preferredProgramRules v) = v.
Proof. now destruct v. Qed.

Lemma isInt_integerValue v :
  isInt 2 12 (stringify v) = true
  <-> exists n, integerValue v = Some n /\ (2 <= n <= 12)%Z.
Proof.
  assert (Hs : forall s,
    isInt 2 12 s = true
    <-> exists n, integerLiteral s = Some n /\ (2 <= n <= 12)%Z).
  { intros s. unfold isInt. destruct (integerLiteral s) as [n|].
    - rewrite andb_true_iff, !Z.leb_le. split.
      + intros Hn. exists n. now split.
      + intros (m & [= <-] & Hm). exact Hm.
    - split; [discriminate | intros (m & Hm & _); discriminate]. }
  destruct v as [| |[|]|n|s]; simpl stringify; simpl integerValue;
    try (split; [discriminate | intros (m & Hm & _); discriminate]).
  - rewrite Hs, integerLiteral_showInt. split.
    + intros (m & [= <-] & Hm). exists n. now split.
    + intros (m & [= <-] & Hm). exists n. now split.
  - apply Hs.
Qed.

Lemma isInt_defined v :
  isInt 2 12 (stringify v) = true -> exists age, toStringMethod v = Ok age.
Proof.
  destruct v as [| |[|]|n|s]; try discriminate; simpl; eauto.
Qed.

Lemma programKeys_resolve key :
  key ∈ programKeys ->
  exists label,
    programNames !! key = Some label
    /\ getProperty programNames key = Some (PString label)
    /\ label <> [].
Proof.
  unfold programKeys. rewrite !elem_of_cons, elem_of_nil.
  intros [-> | [-> | [-> | [-> | [-> | [-> | []]]]]]];
    eexists; (split; [|split]);
    try (vm_compute; reflexivity); discriminate.
Qed.

Lemma stringify_ofField v : stringify (ofField v) = default [] v.
Proof. now destruct v. Qed.

Section Route.
Context `{StringPrototype} `{ValidatorLib}.

Lemma emailRules_fields v :
  Forall (fun e => field e = lit "email") (snd (emailRules v)).
Proof. unfold emailRules. simpl. rewrite !Forall_app. auto using check_field. Qed.

Lemma validationResult_unfold body :
  validationResult body
  = snd (parentNameRules (Body.parentName body))
    ++ snd (childNameRules (Body.childName body))
    ++ snd (childAgeRules (Body.childAge body))
    ++ snd (emailRules (Body.email body))
    ++ snd (phoneRules (Body.phone body))
    ++ snd (preferredProgramRules (Body.preferredProgram body))
    ++ snd (messageRules (Body.message body)).
Proof.
  unfold validationResult, inquiryValidation.
  destruct (parentNameRules _), (childNameRules _), (childAgeRules _),
    (emailRules _), (phoneRules _), (preferredProgramRules _),
    (messageRules _). reflexivity.
Qed.

Lemma rawData_unfold body :
  fst (inquiryValidation body)
  = RawData.mk (fst (parentNameRules (Body.parentName body)))
      (fst (childNameRules (Body.childName body)))
      (fst (childAgeRules (Body.childAge body)))
      (fst (emailRules (Body.email body)))
      (fst (phoneRules (Body.phone body)))
      (fst (preferredProgramRules (Body.preferredProgram body)))
      (fst (messageRules (Body.message body))).
Proof.
  unfold inquiryValidation.
  destruct (parentNameRules _), (childNameRules _), (childAgeRules _),
    (emailRules _), (phoneRules _), (preferredProgramRules _),
    (messageRules _). reflexivity.
Qed.

Lemma validated_rules body :
  validationResult body = [] ->
  isInt 2 12 (stringify (Body.childAge body)) = true
  /\ snd (preferredProgramRules (Body.preferredProgram body)) = [].
Proof.
  rewrite validationResult_unfold. intros E.
  apply app_eq_nil in E as [_ E]. apply app_eq_nil in E as [_ E].
  apply app_eq_nil in E as [Hage E]. apply app_eq_nil in E as [_ E].
  apply app_eq_nil in E as [_ E]. apply app_eq_nil in E as [Hprog _].
  split; [|exact Hprog]. unfold childAgeRules in Hage. simpl in Hage.
  now apply check_nil in Hage.
Qed.

(** The record is built when [normalizeEmail] answered with a string. *)
Lemma sanitizedData_normalized body e :
  validationResult body = [] ->
  normalizeEmail (trim (default [] (Body.email body))) = Some e ->
  exists data,
    sanitizedData (fst (inquiryValidation body)) = Ok data
    /\ InquiryFormData.preferredProgram data
       = match Body.preferredProgram body with
         | None | Some [] => []
         | Some p => p
         end.
Proof.
  intros E He. destruct (validated_rules _ E) as [Hage _].
  destruct (isInt_defined _ Hage) as [age Ha].
  rewrite rawData_unfold. unfold sanitizedData, emailRules.
  cbn [RawData.parentName RawData.childName RawData.childAge RawData.email
       RawData.phone RawData.preferredProgram RawData.message fst
       childAgeRules].
  rewrite stringify_ofField, He, Ha, preferredProgramRules_value. simpl.
  eexists. split; reflexivity.
Qed.

(** The construction of the record raises when it answered [false]. *)
Lemma sanitizedData_refused body :
  validationResult body = [] ->
  normalizeEmail (trim (default [] (Body.email body))) = None ->
  sanitizedData (fst (inquiryValidation body)) = Throw TypeError.
Proof.
  intros E He. destruct (validated_rules _ E) as [Hage _].
  destruct (isInt_defined _ Hage) as [age Ha].
  rewrite rawData_unfold. unfold sanitizedData, emailRules.
  cbn [RawData.parentName RawData.childName RawData.childAge RawData.email
       RawData.phone RawData.preferredProgram RawData.message fst
       childAgeRules].
  rewrite stringify_ofField, He, Ha. reflexivity.
Qed.

Lemma postInquiry_validated w body data :
  validationResult body = [] ->
  sanitizedData (fst (inquiryValidation body)) = Ok data ->
  postInquiry w body
  = (received,
     snd (sendToTelegram w (formatInquiry (now w) data))
     ++ (if fst (sendToTelegram w (formatInquiry (now w) data)) then []
         else [ConsoleError (lit "Failed to send to Telegram")])
     ++ snd (sendConfirmationEmail (InquiryFormData.email data)
               (InquiryFormData.childName data))).
Proof.
  unfold validationResult, postInquiry.
  destruct (inquiryValidation body) as [rawData errs]. simpl.
  intros -> ->. destruct (sendToTelegram _ _) as [ok t1]. reflexivity.
Qed.

Lemma postInquiry_refused w body e :
  validationResult body = [] ->
  sanitizedData (fst (inquiryValidation body)) = Throw e ->
  postInquiry w body = (serverError, [ConsoleError (lit "Server Error:")]).
Proof.
  unfold validationResult, postInquiry.
  destruct (inquiryValidation body) as [rawData errs]. simpl.
  now intros -> ->.
Qed.

(** With an address [normalizeEmail] answers with a string, a validated
    request is acknowledged whatever Telegram does. *)
Lemma normalized_submission_acknowledged w body e :
  validationResult body = [] ->
  normalizeEmail (trim (default [] (Body.email body))) = Some e ->
  fst (postInquiry w body) = received.
Proof.
  intros E He. destruct (sanitizedData_normalized _ _ E He) as (data & Hd & _).
  now rewrite (postInquiry_validated w _ _ E Hd).
Qed.

(** A required field that is absent is reported. *)
Lemma required_missing_rejected body :
  Body.parentName body = None \/ Body.childName body = None
  \/ Body.childAge body = VUndefined \/ Body.email body = None
  \/ Body.phone body = None ->
  validationResult body <> [].
Proof.
  rewrite validationResult_unfold. intros Hmiss E.
  repeat (apply app_eq_nil in E as [? E]).
  destruct Hmiss as [Hm | [Hm | [Hm | [Hm | Hm]]]]; rewrite Hm in *;
    discriminate.
Qed.

End Route.

(** * The claims of the specification *)

Section Claims.
Context `{StringPrototype} `{ValidatorLib}.

(** C1. A submission on which the validation rules report at least one
    error is answered with status 400 and the list of field errors, and
    nothing else happens: the trace of the request is empty, so neither
    [sendToTelegram] nor [sendConfirmationEmail] ran, and no sanitizer
    result was used. *)
Theorem invalid_submission_rejected (w : world) (body : Body.t) :
  validationResult body <> [] ->
  postInquiry w body
  = (mkResponse 400
       (mkApiResponse false None (Some (lit "Validation failed"))
          (Some (validationResult body))),
     []).
Proof.
  unfold validationResult, postInquiry.
  destruct (inquiryValidation body) as [rawData [|e errs]]; simpl.
  - congruence.
  - reflexivity.
Qed.

(** C2, at a request that passes validation with an address to which
    [normalizeEmail] answers [false], as validator.js does for
    [+x@gmail.com]: the chain stores [false] in the body, [sanitizeEmail]
    raises on it, and the handler answers with status 500 and logs the
    error; nothing is sent to Telegram and no acknowledgment is given. *)
Theorem validated_submission_server_error (w : world) (body : Body.t) :
  validationResult body = [] ->
  normalizeEmail (trim (default [] (Body.email body))) = None ->
  postInquiry w body
  = (mkResponse 500
       (mkApiResponse false None
          (Some (lit "An internal server error occurred. Please try again later."))
          None),
     [ConsoleError (lit "Server Error:")]).
Proof.
  intros E He. exact (postInquiry_refused w _ _ E (sanitizedData_refused _ E He)).
Qed.

(** C5. The [childAge] field passes validation exactly when it stands for
    an integer between 2 and 12; 1 and 13 are reported, 2 and 12 are not. *)
Theorem childAge_accepted_iff :
  (forall body,
      fieldPasses "childAge" body
      <-> exists n, integerValue (Body.childAge body) = Some n
                    /\ (2 <= n <= 12)%Z)
  /\ (forall n, snd (childAgeRules (VNum n)) = [] <-> (2 <= n <= 12)%Z)
  /\ snd (childAgeRules (VNum 1))
     = [mkError (lit "childAge")
          (lit "Child age must be between 2 and 12 years")]
  /\ snd (childAgeRules (VNum 13))
     = [mkError (lit "childAge")
          (lit "Child age must be between 2 and 12 years")]
  /\ snd (childAgeRules (VNum 2)) = []
  /\ snd (childAgeRules (VNum 12)) = [].
Proof.
  split; [|split; [|repeat split; reflexivity]].
  - intros body. rewrite <- isInt_integerValue.
    unfold fieldPasses. rewrite validationResult_unfold, !Forall_app.
    unfold childAgeRules at 1. simpl snd at 3. rewrite check_passes.
    split; [tauto|]. intros Hage.
    repeat split; try exact Hage;
      [ apply (other_field "parentName"), parentNameRules_fields
      | apply (other_field "childName"), childNameRules_fields
      | apply (other_field "email"), emailRules_fields
      | apply (other_field "phone"), phoneRules_fields
      | apply (other_field "preferredProgram"), preferredProgramRules_fields
      | apply (other_field "message"), messageRules_fields ];
      discriminate.
  - intros n. unfold childAgeRules. cbn [snd]. rewrite check_nil. split.
    + intros Hn. apply (isInt_integerValue (VNum n)) in Hn.
      destruct Hn as (m & [= <-] & Hm). exact Hm.
    + intros Hn. apply (isInt_integerValue (VNum n)). exists n. now split.
Qed.

(** C9. On a request that passes validation, whenever the handler gets as
    far as [formatInquiry], the [preferredProgram] of the record it passes
    is the submitted one, or the empty string when it was absent; it is one
    of the six keys of the table, and the label is the table's entry for
    it: the fallback of [programName] is not taken. When the construction
    of the record raises instead, [formatInquiry] is not called at all. *)
Theorem validated_program_in_table (w : world) (body : Body.t) :
  validationResult body = [] ->
  match sanitizedData (fst (inquiryValidation body)) with
  | Ok data =>
      fst (postInquiry w body) = received
      /\ InquiryFormData.preferredProgram data
         = default [] (Body.preferredProgram body)
      /\ InquiryFormData.preferredProgram data ∈ programKeys
      /\ exists label,
           programNames !! InquiryFormData.preferredProgram data = Some label
           /\ programName data = PString label
  | Throw _ =>
      postInquiry w body
      = (serverError, [ConsoleError (lit "Server Error:")])
  end.
Proof.
  intros E. destruct (validated_rules _ E) as [_ Hprog].
  destruct (sanitizedData (fst (inquiryValidation body))) as [data|e] eqn:Hd;
    [|exact (postInquiry_refused w _ _ E Hd)].
  assert (Hp : InquiryFormData.preferredProgram data
               = default [] (Body.preferredProgram body)).
  { destruct (normalizeEmail (trim (default [] (Body.email body))))
      as [a|] eqn:He.
    - destruct (sanitizedData_normalized _ _ E He) as (data' & Hd' & Hp).
      rewrite Hd in Hd'. injection Hd' as <-. rewrite Hp.
      now destruct (Body.preferredProgram body) as [[|c p]|].
    - rewrite (sanitizedData_refused _ E He) in Hd. discriminate. }
  assert (Hkey : InquiryFormData.preferredProgram data ∈ programKeys).
  { rewrite Hp. destruct (Body.preferredProgram body) as [[|c p]|].
    - unfold programKeys. rewrite !elem_of_cons. tauto.
    - simpl in Hprog. apply check_nil in Hprog.
      exact (bool_decide_eq_true_1 _ Hprog).
    - unfold programKeys. rewrite !elem_of_cons. tauto. }
  destruct (programKeys_resolve _ Hkey) as (label & Hl & Hg & Hne).
  repeat split; try assumption.
  - now rewrite (postInquiry_validated w _ _ E Hd).
  - exists label. split; [exact Hl|].
    unfold programName. rewrite Hg. simpl. now destruct label.
Qed.

End Claims.

(** C1, on the empty body: every required field is missing. *)
Lemma invalid_submission_rejected_witness :
  @validationResult sampleLib emptyBody <> []
  /\ @postInquiry latin1 sampleLib sampleWorld emptyBody
     = (mkResponse 400
          (mkApiResponse false None (Some (lit "Validation failed"))
             (Some (@validationResult sampleLib emptyBody))),
        []).
Proof.
  split.
  - vm_compute. discriminate.
  - apply (@invalid_submission_rejected latin1 sampleLib sampleWorld
             emptyBody).
    vm_compute. discriminate.
Defined.

(** C2, on the end-to-end scenario with the address [+x@gmail.com]. *)
Lemma validated_submission_server_error_witness :
  @validationResult sampleLib subAddressBody = []
  /\ @postInquiry latin1 sampleLib sampleWorld subAddressBody
     = (mkResponse 500
          (mkApiResponse false None
             (Some (lit "An internal server error occurred. Please try again later."))
             None),
        [ConsoleError (lit "Server Error:")]).
Proof.
  split.
  - vm_compute. reflexivity.
  - apply (@validated_submission_server_error latin1 sampleLib sampleWorld
             subAddressBody); vm_compute; reflexivity.
Defined.

(** C9, on the end-to-end scenario. *)
Lemma validated_program_in_table_witness :
  match @sanitizedData latin1
          (fst (@inquiryValidation sampleLib sampleBody)) with
  | Ok data =>
      fst (@postInquiry latin1 sampleLib sampleWorld sampleBody) = received
      /\ InquiryFormData.preferredProgram data
         = default [] (Body.preferredProgram sampleBody)
      /\ InquiryFormData.preferredProgram data ∈ programKeys
      /\ exists label,
           programNames !! InquiryFormData.preferredProgram data = Some label
           /\ programName data = PString label
  | Throw _ =>
      @postInquiry latin1 sampleLib sampleWorld sampleBody
      = (serverError, [ConsoleError (lit "Server Error:")])
  end.
Proof.
  apply (@validated_program_in_table latin1 sampleLib sampleWorld sampleBody).
  vm_compute. reflexivity.
Defined.

(** The sanitizers on sample inputs. *)
Example sanitizeInput_sample :
  sanitizeInput (VStr (lit "  <b>Tom & 'Jerry'</b> "))
  = lit "bTom &amp; &#x27;Jerry&#x27;/b".
Proof. vm_compute. reflexivity. Qed.

Example sanitizePhone_sample :
  sanitizePhone (VStr (lit "tel: +81 (90) 1234-5678 ext.9"))
  = Ok (lit " +81 (90) 1234-5678 9").
Proof. vm_compute. reflexivity. Qed.

Example sanitizeEmail_sample :
  @sanitizeEmail latin1 (VStr (lit "  A@Example.com "))
  = Ok (lit "a@example.com").
Proof. vm_compute. reflexivity. Qed.


(** C4, as stated, fails: [sanitizePhone] and [sanitizeEmail] call a string
    method on their argument and raise on a value that is not a string. *)
Lemma sanitizers_raise_on_non_text :
  ~ (exists t, sanitizePhone (VNum 5) = Ok t)
  /\ (forall L : StringPrototype,
        ~ (exists t, @sanitizeEmail L VUndefined = Ok t)).
Proof. split; [|intros L]; intros [t Ht]; discriminate. Qed.

(** C4, amended. The three sanitizers are functions of their argument alone.
    On every string each of them returns a string. [sanitizeInput] also
    accepts a value that is not a string and returns the empty string for
    it; the other two raise a [TypeError] there. *)
Theorem sanitizers_total_on_text `{StringPrototype} (v : value) :
  match v with
  | VStr s =>
      (exists t, sanitizeInput v = t)
      /\ (exists t, sanitizePhone v = Ok t)
      /\ (exists t, sanitizeEmail v = Ok t)
  | _ =>
      sanitizeInput v = []
      /\ sanitizePhone v = Throw TypeError
      /\ sanitizeEmail v = Throw TypeError
  end.
Proof. destruct v; simpl; repeat split; eauto. Qed.

(** The label is a line of the notification. *)
Lemma formattedText_label now data :
  includes (FormattedInquiry.formattedText (formatInquiry now data))
    (toText (programName data)).
Proof.
  simpl. rewrite trim_template. unfold rendered.
  apply (includes_concat
    [ books; lit " *New Inquiry - Kumagaya Kids English*"; nl; nl;
      family; lit " *Parent Information:*"; nl;
      bullet; lit " Name: "; InquiryFormData.parentName data; nl;
      bullet; lit " Email: "; InquiryFormData.email data; nl;
      bullet; lit " Phone: "; InquiryFormData.phone data; nl; nl;
      baby; lit " *Child Information:*"; nl;
      bullet; lit " Name: "; InquiryFormData.childName data; nl;
      bullet; lit " Age: "; showNumber (InquiryFormData.childAge data);
      lit " years old"; nl; nl;
      openBook; lit " *Program Interest:*"; nl ]).
Qed.

(** C6, at a key that names a member of [Object.prototype]: the lookup finds
    the inherited member, which is truthy, so the fallback is not taken and
    the label, a line of the notification, is the text of a built-in
    function instead of the key. *)
Theorem programName_inherited_key :
  let data :=
    InquiryFormData.mk (lit "Jane Doe") (lit "Tom Doe") (Int 5)
      (lit "a@example.com") (lit "+81-90-1234-5678") (lit "constructor")
      None in
  programName data = PInherited (lit "constructor")
  /\ toText (programName data) = lit "function Object() { [native code] }"
  /\ toText (programName data) <> lit "constructor"
  /\ forall now,
       includes (FormattedInquiry.formattedText (formatInquiry now data))
         (lit "function Object() { [native code] }").
Proof.
  intros data.
  assert (E : toText (programName data)
              = lit "function Object() { [native code] }")
    by (vm_compute; reflexivity).
  split; [|split; [|split]].
  - vm_compute. reflexivity.
  - exact E.
  - rewrite E. vm_compute. discriminate.
  - intros now. rewrite <- E. apply formattedText_label.
Qed.

(** The parts of C6 the code does honour. *)
Lemma programName_known_keys :
  (forall d, InquiryFormData.preferredProgram d = lit "preschool" ->
             programName d = PString (lit "Preschool (Ages 4-5)"))
  /\ (forall d, InquiryFormData.preferredProgram d = [] ->
                programName d = PString (lit "Not specified"))
  /\ (forall d, InquiryFormData.preferredProgram d = lit "xyz-unknown" ->
                programName d = PString (lit "xyz-unknown")).
Proof.
  repeat split; intros d Hd; unfold programName; rewrite Hd;
    vm_compute; reflexivity.
Qed.

Lemma programName_fallback d :
  InquiryFormData.preferredProgram d ∉ programKeys ->
  InquiryFormData.preferredProgram d ∉ objectPrototype ->
  programName d = PString (InquiryFormData.preferredProgram d).
Proof.
  intros Hk Hp. unfold programName, getProperty.
  replace (programNames !! InquiryFormData.preferredProgram d)
    with (@None jstring).
  - now rewrite decide_False by exact Hp.
  - symmetry. apply not_elem_of_list_to_map_1. exact Hk.
Qed.



(** C8. [formatInquiry] returns for every record; its text is the fixed
    template filled with the fields, and the parent's and the child's name
    occur in it as they are. *)
Theorem formatInquiry_contains_names (now : jstring) (data : InquiryFormData.t) :
  FormattedInquiry.formattedText (formatInquiry now data) = rendered now data
  /\ includes (FormattedInquiry.formattedText (formatInquiry now data))
       (InquiryFormData.parentName data)
  /\ includes (FormattedInquiry.formattedText (formatInquiry now data))
       (InquiryFormData.childName data).
Proof.
  simpl. rewrite trim_template. split; [reflexivity|]. unfold rendered. split.
  - apply (includes_concat
      [ books; lit " *New Inquiry - Kumagaya Kids English*"; nl; nl;
        family; lit " *Parent Information:*"; nl;
        bullet; lit " Name: " ]).
  - apply (includes_concat
      [ books; lit " *New Inquiry - Kumagaya Kids English*"; nl; nl;
        family; lit " *Parent Information:*"; nl;
        bullet; lit " Name: "; InquiryFormData.parentName data; nl;
        bullet; lit " Email: "; InquiryFormData.email data; nl;
        bullet; lit " Phone: "; InquiryFormData.phone data; nl; nl;
        baby; lit " *Child Information:*"; nl;
        bullet; lit " Name: " ]).
Qed.

(** C10. [formatInquiry] copies every field of its argument except
    [message], which becomes the placeholder when it is absent or empty and
    is copied otherwise; [formattedText] is the one field it adds. *)
Theorem formatInquiry_frame (now : jstring) (data : InquiryFormData.t) :
  let f := formatInquiry now data in
  FormattedInquiry.parentName f = InquiryFormData.parentName data
  /\ FormattedInquiry.childName f = InquiryFormData.childName data
  /\ FormattedInquiry.childAge f = InquiryFormData.childAge data
  /\ FormattedInquiry.email f = InquiryFormData.email data
  /\ FormattedInquiry.phone f = InquiryFormData.phone data
  /\ FormattedInquiry.preferredProgram f
     = InquiryFormData.preferredProgram data
  /\ FormattedInquiry.message f
     = match InquiryFormData.message data with
       | Some (c :: m) => c :: m
       | _ => lit "No additional message provided."
       end
  /\ FormattedInquiry.formattedText f = trim (template now data).
Proof.
  simpl. repeat split. unfold messageOf.
  now destruct (InquiryFormData.message data) as [[|c m]|].
Qed.


(** * Further properties of the code *)

(** ** Sanitizers *)

Lemma dropWhile_incl p s x : In x (dropWhile p s) -> In x s.
Proof.
  induction s as [|c t IH]; simpl; [tauto|].
  destruct (p c); [intros Hx; right; exact (IH Hx) | simpl; tauto].
Qed.

Lemma trim_incl s x : In x (trim s) -> In x s.
Proof.
  unfold trim, trimEnd, trimStart. intros Hx.
  apply in_rev, dropWhile_incl, in_rev in Hx.
  exact (dropWhile_incl _ _ _ Hx).
Qed.

Lemma entityOf_plain c : isHtmlSpecial c = false -> entityOf c = [c].
Proof.
  unfold isHtmlSpecial, entityOf, isAngle. intros Hc.
  repeat (apply orb_false_elim in Hc as [Hc ?]).
  now repeat match goal with E : (_ =? _) = false |- _ => rewrite E; clear E end.
Qed.

Lemma flat_map_entityOf_plain t :
  forallb (fun c => negb (isHtmlSpecial c)) t = true ->
  flat_map entityOf t = t.
Proof.
  induction t as [|c t IH]; [reflexivity|]. simpl. intros Ht.
  apply andb_prop in Ht as [Hc Ht]. apply negb_true_iff in Hc.
  now rewrite (entityOf_plain _ Hc), (IH Ht).
Qed.

Lemma sanitizeInput_untouched s :
  forallb (fun c => negb (isHtmlSpecial c)) s = true ->
  sanitizeInput (VStr s) = trim s.
Proof.
  intros Hs. unfold sanitizeInput. rewrite escape_after_strip.
  apply flat_map_entityOf_plain. apply forallb_forall. intros c Hc.
  apply trim_incl in Hc. revert c Hc. now apply forallb_forall.
Qed.

(** X1. A text without any of the five characters the escape step looks
    for (ampersand, angle brackets, double and single quote) comes back from
    [sanitizeInput] trimmed and otherwise as it was. *)
Theorem sanitizeInput_plain (s : jstring) :
  forallb (fun c => negb (isHtmlSpecial c)) s = true ->
  sanitizeInput (VStr s) = trim s.
Proof. apply sanitizeInput_untouched. Qed.

Lemma sanitizeInput_plain_witness :
  sanitizeInput (VStr (lit "  Jane Doe ")) = trim (lit "  Jane Doe ").
Proof. apply (sanitizeInput_plain (lit "  Jane Doe ")). reflexivity. Defined.

Lemma occ_app c s t : occ c (s ++ t) = (occ c s + occ c t)%nat.
Proof. apply count_occ_app. Qed.

Lemma occ_takeWhile c s :
  isWhiteSpace c = false -> occ c (takeWhile isWhiteSpace s) = 0%nat.
Proof.
  intros Hc. induction s as [|a t IH]; [reflexivity|]. simpl.
  destruct (isWhiteSpace a) eqn:Ea; [|reflexivity].
  unfold occ in *. simpl. destruct (N.eq_dec a c) as [->|]; [congruence|].
  exact IH.
Qed.

Lemma occ_dropWhile c s :
  isWhiteSpace c = false -> occ c (dropWhile isWhiteSpace s) = occ c s.
Proof.
  intros Hc. rewrite <- (takeWhile_dropWhile isWhiteSpace s) at 2.
  now rewrite occ_app, occ_takeWhile.
Qed.

Lemma occ_trim c s : isWhiteSpace c = false -> occ c (trim s) = occ c s.
Proof.
  intros Hc. unfold trim, trimEnd, trimStart, occ.
  rewrite count_occ_rev. fold (occ c (dropWhile isWhiteSpace
    (rev (dropWhile isWhiteSpace s)))).
  rewrite occ_dropWhile by exact Hc. unfold occ. rewrite count_occ_rev.
  now apply occ_dropWhile.
Qed.

Lemma occ_semicolon_entityOf c :
  (occ 59 [c] + occ 38 [c] <= occ 59 (entityOf c))%nat.
Proof.
  unfold entityOf, isAngle.
  destruct (N.eqb_spec c 60) as [->|]; [simpl; lia|].
  destruct (N.eqb_spec c 62) as [->|]; [simpl; lia|]. simpl.
  destruct (N.eqb_spec c 38) as [->|]; [simpl; lia|].
  destruct (N.eqb_spec c 34) as [->|]; [simpl; lia|].
  destruct (N.eqb_spec c 39) as [->|]; [simpl; lia|].
  unfold occ. simpl. destruct (N.eq_dec c 38); [contradiction|]. lia.
Qed.

Lemma occ_semicolon_escaped t :
  (occ 59 t + occ 38 t <= occ 59 (flat_map entityOf t))%nat.
Proof.
  induction t as [|c t IH]; [reflexivity|].
  change (c :: t) with ([c] ++ t). rewrite flat_map_app, !occ_app.
  simpl flat_map. rewrite app_nil_r.
  pose proof (occ_semicolon_entityOf c). lia.
Qed.

(** X2. [sanitizeInput] is not idempotent: once its result holds an
    ampersand (the input had an ampersand or a quote), sanitizing the result
    again gives a different text, because the ampersand of every entity is
    escaped once more. *)
Theorem sanitizeInput_escapes_twice (s : jstring) :
  In 38 (sanitizeInput (VStr s)) ->
  sanitizeInput (VStr (sanitizeInput (VStr s))) <> sanitizeInput (VStr s).
Proof.
  intros Hamp E. apply (count_occ_In N.eq_dec) in Hamp.
  fold (occ 38 (sanitizeInput (VStr s))) in Hamp.
  set (o := sanitizeInput (VStr s)) in *.
  assert (H2 : occ 59 (sanitizeInput (VStr o)) = occ 59 o) by now rewrite E.
  unfold sanitizeInput in H2 at 1. rewrite escape_after_strip in H2.
  pose proof (occ_semicolon_escaped (trim o)) as Hle.
  rewrite !occ_trim in Hle by reflexivity. lia.
Qed.

Lemma sanitizeInput_escapes_twice_witness :
  sanitizeInput (VStr (sanitizeInput (VStr (lit "Tom & Jerry"))))
  <> sanitizeInput (VStr (lit "Tom & Jerry")).
Proof.
  apply (sanitizeInput_escapes_twice (lit "Tom & Jerry")).
  vm_compute. tauto.
Defined.

Lemma strip_is_filter p s :
  replaceAll (fun c => negb (p c)) (fun _ => []) s = List.filter p s.
Proof.
  induction s as [|c t IH]; [reflexivity|].
  rewrite replaceAll_cons, IH. simpl. now destruct (p c).
Qed.

Lemma filter_shorter p (s : jstring) :
  (length (List.filter p s) <= length s)%nat.
Proof. induction s as [|c t IH]; simpl; [|destruct (p c); simpl]; lia. Qed.

(** X3. On a string [sanitizePhone] keeps exactly the code units of the
    class digits, [+], [-], parentheses and space, in their order: the
    result holds nothing else, is never longer than the input, and
    sanitizing it again changes nothing. *)
Theorem sanitizePhone_keeps_phone_chars (s : jstring) :
  exists t,
    sanitizePhone (VStr s) = Ok t
    /\ t = List.filter isPhoneChar s
    /\ forallb isPhoneChar t = true
    /\ (length t <= length s)%nat
    /\ sanitizePhone (VStr t) = Ok t.
Proof.
  exists (List.filter isPhoneChar s). unfold sanitizePhone.
  rewrite !strip_is_filter. repeat split.
  - apply forallb_filter.
  - apply filter_shorter.
  - f_equal. apply forallb_filter_id, forallb_filter.
Qed.

Lemma trim_decompose s :
  exists pre post,
    s = pre ++ trim s ++ post
    /\ forallb isWhiteSpace pre = true
    /\ forallb isWhiteSpace post = true.
Proof.
  exists (takeWhile isWhiteSpace s),
         (rev (takeWhile isWhiteSpace (rev (trimStart s)))).
  split; [|split].
  - unfold trim, trimEnd. rewrite <- rev_app_distr, takeWhile_dropWhile.
    rewrite rev_involutive. unfold trimStart.
    now rewrite takeWhile_dropWhile.
  - apply takeWhile_forallb.
  - rewrite forallb_rev. apply takeWhile_forallb.
Qed.

(** X4. On a string [sanitizeEmail] returns the lower-cased input without
    the run of white space at each of its ends: it neither starts nor ends
    with white space, and trimming it again changes nothing. *)
Theorem sanitizeEmail_shape `{StringPrototype} (x : jstring) :
  exists y pre post,
    sanitizeEmail (VStr x) = Ok y
    /\ toLowerCase x = pre ++ y ++ post
    /\ forallb isWhiteSpace pre = true
    /\ forallb isWhiteSpace post = true
    /\ (forall c t, y = c :: t -> isWhiteSpace c = false)
    /\ (forall t c, y = t ++ [c] -> isWhiteSpace c = false)
    /\ trim y = y.
Proof.
  destruct (trim_decompose (toLowerCase x)) as (pre & post & E & Hpre & Hpost).
  exists (trim (toLowerCase x)), pre, post.
  split; [reflexivity|]. split; [exact E|]. split; [exact Hpre|].
  split; [exact Hpost|]. split; [|split].
  - intros c t Hy.
    assert (Hd : trimStart (trim (toLowerCase x)) = trim (toLowerCase x))
      by (unfold trim; apply trimStart_trimEnd, dropWhile_idem).
    rewrite Hy in Hd. exact (dropWhile_head _ _ _ _ Hd).
  - intros t c Hy. unfold trim, trimEnd in Hy.
    apply (f_equal (@rev N)) in Hy.
    rewrite rev_involutive, rev_app_distr in Hy. simpl in Hy.
    exact (dropWhile_head _ _ _ _ Hy).
  - apply trim_idem.
Qed.

(** ** The formatter *)

(** X5. The label [formatInquiry] resolves, for every record: the entry of
    the table when the key is one of its six keys; the inherited member of
    [Object.prototype] when the key names one, and then its text is not the
    key; the key itself in every other case. *)
Theorem programName_cases (d : InquiryFormData.t) :
  let k := InquiryFormData.preferredProgram d in
  (k ∈ programKeys
   /\ exists label,
        programNames !! k = Some label /\ label <> []
        /\ programName d = PString label)
  \/ ((k ∉ programKeys) /\ (k ∈ objectPrototype)
      /\ programName d = PInherited k /\ toText (programName d) <> k)
  \/ ((k ∉ programKeys) /\ (k ∉ objectPrototype)
      /\ programName d = PString k).
Proof.
  intros k. destruct (decide (k ∈ programKeys)) as [Hk | Hk].
  - left. split; [exact Hk|].
    destruct (programKeys_resolve _ Hk) as (label & Hl & Hg & Hne).
    exists label. repeat split; try assumption.
    unfold programName. fold k. rewrite Hg. simpl. now destruct label.
  - right. assert (Hnone : programNames !! k = None)
      by (apply not_elem_of_list_to_map_1; exact Hk).
    destruct (decide (k ∈ objectPrototype)) as [Hp | Hp].
    + left. assert (Hn : programName d = PInherited k).
      { unfold programName, getProperty. fold k.
        now rewrite Hnone, decide_True by exact Hp. }
      repeat split; try assumption. rewrite Hn.
      apply list_elem_of_In in Hp. simpl in Hp.
      repeat (destruct Hp as [<- | Hp]; [vm_compute; discriminate|]).
      contradiction.
    + right. repeat split; try assumption.
      unfold programName, getProperty. fold k.
      now rewrite Hnone, decide_False by exact Hp.
Qed.

(** Two concatenations of the same pieces, bracketed differently. *)
Ltac reassociate :=
  cbn [concat]; repeat rewrite <- app_assoc; repeat rewrite app_nil_l;
  repeat rewrite app_nil_r; reflexivity.

Lemma includes_piece (pieces : list jstring) t :
  In t pieces -> includes (concat pieces) t.
Proof.
  intros Ht. apply in_split in Ht as (l1 & l2 & ->). apply includes_concat.
Qed.

(** X6. The notification carries the address, the phone number, the age,
    the message and the time of formatting as they are, and its message is
    never empty. *)
Theorem formattedText_carries_fields (now : jstring) (data : InquiryFormData.t) :
  let f := formatInquiry now data in
  includes (FormattedInquiry.formattedText f) (InquiryFormData.email data)
  /\ includes (FormattedInquiry.formattedText f) (InquiryFormData.phone data)
  /\ includes (FormattedInquiry.formattedText f)
       (showNumber (InquiryFormData.childAge data) ++ lit " years old")
  /\ includes (FormattedInquiry.formattedText f) (FormattedInquiry.message f)
  /\ FormattedInquiry.message f <> []
  /\ includes (FormattedInquiry.formattedText f)
       (lit "_Received at " ++ now ++ lit "_").
Proof.
  simpl. rewrite trim_template. unfold rendered.
  split; [apply includes_piece; simpl; tauto|].
  split; [apply includes_piece; simpl; tauto|].
  split.
  { exists (concat
      [ books; lit " *New Inquiry - Kumagaya Kids English*"; nl; nl;
        family; lit " *Parent Information:*"; nl;
        bullet; lit " Name: "; InquiryFormData.parentName data; nl;
        bullet; lit " Email: "; InquiryFormData.email data; nl;
        bullet; lit " Phone: "; InquiryFormData.phone data; nl; nl;
        baby; lit " *Child Information:*"; nl;
        bullet; lit " Name: "; InquiryFormData.childName data; nl;
        bullet; lit " Age: " ]),
      (concat
      [ nl; nl; openBook; lit " *Program Interest:*"; nl;
        toText (programName data); nl; nl;
        speech; lit " *Message:*"; nl;
        messageOf data; nl; nl;
        lit "---"; nl;
        lit "_Received at "; now; lit "_" ]).
    reassociate. }
  split; [apply includes_piece; simpl; tauto|].
  split.
  { unfold messageOf. destruct (InquiryFormData.message data) as [[|c m]|];
      discriminate. }
  exists (concat
    [ books; lit " *New Inquiry - Kumagaya Kids English*"; nl; nl;
      family; lit " *Parent Information:*"; nl;
      bullet; lit " Name: "; InquiryFormData.parentName data; nl;
      bullet; lit " Email: "; InquiryFormData.email data; nl;
      bullet; lit " Phone: "; InquiryFormData.phone data; nl; nl;
      baby; lit " *Child Information:*"; nl;
      bullet; lit " Name: "; InquiryFormData.childName data; nl;
      bullet; lit " Age: "; showNumber (InquiryFormData.childAge data);
      lit " years old"; nl; nl;
      openBook; lit " *Program Interest:*"; nl;
      toText (programName data); nl; nl;
      speech; lit " *Message:*"; nl;
      messageOf data; nl; nl;
      lit "---"; nl ]), [].
  reassociate.
Qed.

(** X7. Whatever the fields and the clock hold, the text of the
    notification is the template literal without its first line break and
    without the line break and four spaces at its end: nothing of the fields
    is trimmed away. It starts with the books emoji, ends with an
    underscore, and trimming it again changes nothing. *)
Theorem formattedText_trimmed (now : jstring) (data : InquiryFormData.t) :
  let text := FormattedInquiry.formattedText (formatInquiry now data) in
  template now data = nl ++ text ++ nl ++ lit "    "
  /\ (exists mid, text = books ++ mid ++ lit "_")
  /\ trim text = text.
Proof.
  intros text. unfold text. clear text.
  change (FormattedInquiry.formattedText (formatInquiry now data))
    with (trim (template now data)).
  split; [|split].
  - rewrite trim_template. unfold template, rendered. reassociate.
  - rewrite trim_template. unfold rendered.
    exists (concat
      [ lit " *New Inquiry - Kumagaya Kids English*"; nl; nl;
        family; lit " *Parent Information:*"; nl;
        bullet; lit " Name: "; InquiryFormData.parentName data; nl;
        bullet; lit " Email: "; InquiryFormData.email data; nl;
        bullet; lit " Phone: "; InquiryFormData.phone data; nl; nl;
        baby; lit " *Child Information:*"; nl;
        bullet; lit " Name: "; InquiryFormData.childName data; nl;
        bullet; lit " Age: "; showNumber (InquiryFormData.childAge data);
        lit " years old"; nl; nl;
        openBook; lit " *Program Interest:*"; nl;
        toText (programName data); nl; nl;
        speech; lit " *Message:*"; nl;
        messageOf data; nl; nl;
        lit "---"; nl;
        lit "_Received at "; now ]).
    reassociate.
  - apply trim_idem.
Qed.

(** ** Validation and the sanitized record *)

Lemma isNameChar_low c : isNameChar c = true -> c < 55296 \/ c = 65279.
Proof.
  intros Hc. destruct (N.lt_ge_cases c 55296) as [|Hge]; [now left|].
  destruct (N.eq_dec c 65279) as [|Hne]; [now right|]. exfalso.
  revert Hc. unfold isNameChar, isWhiteSpace, inRange. settle_cmp.
  discriminate.
Qed.

Lemma isNameChar_plain c : isNameChar c = true -> isHtmlSpecial c = false.
Proof.
  intros Hc. destruct (isHtmlSpecial c) eqn:E; [|reflexivity].
  unfold isHtmlSpecial in E.
  repeat (apply orb_prop in E as [E | E]); apply N.eqb_eq in E; subst c;
    discriminate.
Qed.

Lemma surrogatePairs_skip a t :
  isHighSurrogate a = false -> surrogatePairs (a :: t) = surrogatePairs t.
Proof. intros Ha. destruct t; simpl; now rewrite ?Ha. Qed.

Lemma name_length s :
  forallb isNameChar s = true ->
  surrogatePairs s = 0%nat /\ presentationSequences s = 0%nat.
Proof.
  induction s as [|c t IH]; [now split|]. simpl forallb. intros Hs.
  apply andb_prop in Hs as [Hc Ht]. destruct (IH Ht) as [IH1 IH2].
  apply isNameChar_low in Hc. split.
  - rewrite surrogatePairs_skip; [exact IH1|].
    unfold isHighSurrogate, inRange. destruct Hc as [Hc | ->];
      [settle_cmp|]; reflexivity.
  - unfold presentationSequences in *. simpl.
    replace ((c =? 65039) || (c =? 65038)) with false; [exact IH2|].
    destruct Hc as [Hc | ->]; [settle_cmp|]; reflexivity.
Qed.

Lemma name_rules_inv (f : string) m1 m2 m3 s :
  check f m1 (negb (isEmpty s)) ++ check f m2 (isLength 2 (Some 100%nat) s)
  ++ check f m3 (nameRegex s) = [] ->
  forallb isNameChar s = true /\ (2 <= length s <= 100)%nat.
Proof.
  intros E. apply app_eq_nil in E as [_ E]. apply app_eq_nil in E as [Hl Hr].
  apply check_nil in Hl, Hr. unfold nameRegex in Hr.
  apply andb_prop in Hr as [_ Hr]. split; [exact Hr|].
  destruct (name_length _ Hr) as [H1 H2]. unfold isLength in Hl.
  rewrite H1, H2 in Hl. apply andb_prop in Hl as [Hmin Hmax].
  apply Nat.leb_le in Hmin, Hmax. lia.
Qed.

Lemma check_length f m ok : (length (check f m ok) <= 1)%nat.
Proof. destruct ok; simpl; lia. Qed.

(** Bound the length of every [check] of the goal by one. *)
Ltac bound_checks :=
  repeat match goal with
  | |- context [length (check ?f ?m ?ok)] =>
      generalize (check_length f m ok);
      generalize (length (check f m ok)); intros ? ?
  end; lia.

Lemma filter_field_same f l :
  Forall (fun e => field e = lit f) l ->
  List.filter (fun e => bool_decide (field e = lit f)) l = l.
Proof.
  induction 1 as [|e l He _ IH]; [reflexivity|]. simpl.
  now rewrite bool_decide_eq_true_2, IH by exact He.
Qed.

Lemma filter_field_other f g l :
  lit f <> lit g ->
  Forall (fun e => field e = lit f) l ->
  List.filter (fun e => bool_decide (field e = lit g)) l = [].
Proof.
  intros Hne. induction 1 as [|e l He _ IH]; [reflexivity|]. simpl.
  rewrite bool_decide_eq_false_2; [exact IH|]. now rewrite He.
Qed.

Section Record.
Context `{StringPrototype} `{ValidatorLib}.

(** The sanitized record of a validated request, field by field. *)
Lemma sanitizedData_fields body e :
  validationResult body = [] ->
  normalizeEmail (trim (default [] (Body.email body))) = Some e ->
  exists age,
    toStringMethod (Body.childAge body) = Ok age
    /\ sanitizedData (fst (inquiryValidation body))
       = Ok (InquiryFormData.mk
               (sanitizeInput (VStr (trim (default [] (Body.parentName body)))))
               (sanitizeInput (VStr (trim (default [] (Body.childName body)))))
               (parseInt age)
               (trim (toLowerCase e))
               (List.filter isPhoneChar
                  (trim (default [] (Body.phone body))))
               (default [] (Body.preferredProgram body))
               (Some match Body.message body with
                     | None => []
                     | Some m =>
                         match trim m with
                         | [] => []
                         | t => sanitizeInput (VStr t)
                         end
                     end)).
Proof.
  intros E He. destruct (validated_rules _ E) as [Hage _].
  destruct (isInt_defined _ Hage) as [age Ha]. exists age.
  split; [exact Ha|]. rewrite rawData_unfold. unfold sanitizedData.
  cbn [RawData.parentName RawData.childName RawData.childAge RawData.email
       RawData.phone RawData.preferredProgram RawData.message
       parentNameRules childNameRules
       childAgeRules emailRules phoneRules fst ofField].
  rewrite Ha, preferredProgramRules_value, !stringify_ofField, He.
  cbn [mbind result_bind sanitizeEmail sanitizePhone].
  rewrite strip_is_filter. unfold mret, result_ret. f_equal. f_equal.
  - now destruct (Body.preferredProgram body) as [[|c p]|].
  - destruct (Body.message body) as [m|]; [|reflexivity].
    cbn [messageRules fst]. now destruct (trim m).
Qed.

(** Every sanitized record of a validated request is the one above. *)
Lemma sanitizedData_inv body data :
  validationResult body = [] ->
  sanitizedData (fst (inquiryValidation body)) = Ok data ->
  exists age e,
    toStringMethod (Body.childAge body) = Ok age
    /\ normalizeEmail (trim (default [] (Body.email body))) = Some e
    /\ data
       = InquiryFormData.mk
           (sanitizeInput (VStr (trim (default [] (Body.parentName body)))))
           (sanitizeInput (VStr (trim (default [] (Body.childName body)))))
           (parseInt age)
           (trim (toLowerCase e))
           (List.filter isPhoneChar (trim (default [] (Body.phone body))))
           (default [] (Body.preferredProgram body))
           (Some match Body.message body with
                 | None => []
                 | Some m =>
                     match trim m with
                     | [] => []
                     | t => sanitizeInput (VStr t)
                     end
                 end).
Proof.
  intros E Hd.
  destruct (normalizeEmail (trim (default [] (Body.email body))))
    as [e|] eqn:He.
  - destruct (sanitizedData_fields _ _ E He) as (age & Ha & Hf).
    exists age, e. split; [exact Ha|]. split; [reflexivity|].
    rewrite Hd in Hf. now injection Hf.
  - rewrite (sanitizedData_refused _ E He) in Hd. discriminate.
Qed.

(** Rewrite the selection, by field, of the errors of the seven chains. *)
Ltac select_field :=
  rewrite validationResult_unfold, !List.filter_app;
  repeat
    match goal with
    | |- context [List.filter (fun e => bool_decide (field e = lit ?g))
                    (snd (?rules ?v))] =>
        first
          [ rewrite (filter_field_same g (snd (rules v)))
              by first [ apply parentNameRules_fields
                       | apply childNameRules_fields
                       | apply (check_field "childAge")
                       | apply emailRules_fields
                       | apply phoneRules_fields
                       | apply preferredProgramRules_fields
                       | apply messageRules_fields ]
          | rewrite (filter_field_other "parentName" g (snd (rules v)))
              by first [discriminate | apply parentNameRules_fields]
          | rewrite (filter_field_other "childName" g (snd (rules v)))
              by first [discriminate | apply childNameRules_fields]
          | rewrite (filter_field_other "childAge" g (snd (rules v)))
              by first [discriminate | apply (check_field "childAge")]
          | rewrite (filter_field_other "email" g (snd (rules v)))
              by first [discriminate | apply emailRules_fields]
          | rewrite (filter_field_other "phone" g (snd (rules v)))
              by first [discriminate | apply phoneRules_fields]
          | rewrite (filter_field_other "preferredProgram" g (snd (rules v)))
              by first [discriminate | apply preferredProgramRules_fields]
          | rewrite (filter_field_other "message" g (snd (rules v)))
              by first [discriminate | apply messageRules_fields] ]
    end;
  rewrite ?app_nil_r; reflexivity.

(** X8. Every chain runs, whatever the others report: the errors reported
    for a field are exactly those its own chain finds in that field, for
    each of the seven fields. They come in the order of the chains, those
    of [parentName], then [childName], [childAge], [email], [phone],
    [preferredProgram] and [message], and there are at most thirteen. *)
Theorem errors_in_declaration_order (body : Body.t) :
  let reported (f : string) :=
    List.filter (fun e => bool_decide (field e = lit f))
      (validationResult body) in
  reported "parentName"%string = snd (parentNameRules (Body.parentName body))
  /\ reported "childName"%string = snd (childNameRules (Body.childName body))
  /\ reported "childAge"%string = snd (childAgeRules (Body.childAge body))
  /\ reported "email"%string = snd (emailRules (Body.email body))
  /\ reported "phone"%string = snd (phoneRules (Body.phone body))
  /\ reported "preferredProgram"%string
     = snd (preferredProgramRules (Body.preferredProgram body))
  /\ reported "message"%string = snd (messageRules (Body.message body))
  /\ validationResult body
     = reported "parentName"%string ++ reported "childName"%string ++ reported "childAge"%string
       ++ reported "email"%string ++ reported "phone"%string
       ++ reported "preferredProgram"%string ++ reported "message"%string
  /\ (length (validationResult body) <= 13)%nat.
Proof.
  intros reported.
  assert (H1 : reported "parentName"%string
               = snd (parentNameRules (Body.parentName body)))
    by (unfold reported; select_field).
  assert (H2 : reported "childName"%string
               = snd (childNameRules (Body.childName body)))
    by (unfold reported; select_field).
  assert (H3 : reported "childAge"%string
               = snd (childAgeRules (Body.childAge body)))
    by (unfold reported; select_field).
  assert (H4 : reported "email"%string
               = snd (emailRules (Body.email body)))
    by (unfold reported; select_field).
  assert (H5 : reported "phone"%string
               = snd (phoneRules (Body.phone body)))
    by (unfold reported; select_field).
  assert (H6 : reported "preferredProgram"%string
               = snd (preferredProgramRules (Body.preferredProgram body)))
    by (unfold reported; select_field).
  assert (H7 : reported "message"%string
               = snd (messageRules (Body.message body)))
    by (unfold reported; select_field).
  rewrite H1, H2, H3, H4, H5, H6, H7.
  do 7 (split; [reflexivity|]). split; [apply validationResult_unfold|].
  rewrite validationResult_unfold.
  rewrite !length_app. unfold parentNameRules, childNameRules, childAgeRules,
    emailRules, phoneRules. cbn [snd]. rewrite !length_app.
  destruct (Body.preferredProgram body), (Body.message body);
    cbn [preferredProgramRules messageRules snd length]; bound_checks.
Qed.

End Record.

Section Validated.
Context `{StringPrototype} `{ValidatorLib}.

Lemma validated_groups body :
  validationResult body = [] ->
  snd (parentNameRules (Body.parentName body)) = []
  /\ snd (childNameRules (Body.childName body)) = []
  /\ snd (childAgeRules (Body.childAge body)) = []
  /\ snd (emailRules (Body.email body)) = []
  /\ snd (phoneRules (Body.phone body)) = []
  /\ snd (preferredProgramRules (Body.preferredProgram body)) = []
  /\ snd (messageRules (Body.message body)) = [].
Proof.
  rewrite validationResult_unfold. intros E.
  repeat (apply app_eq_nil in E as [? E]). tauto.
Qed.

(** X9. A request in which a required text field is missing or blank, or
    the age is missing or null, is answered with status 400 and a list of
    errors that is not empty, and nothing is sent. *)
Theorem blank_required_field_rejected (w : world) (body : Body.t) :
  trim (default [] (Body.parentName body)) = []
  \/ trim (default [] (Body.childName body)) = []
  \/ Body.childAge body = VUndefined \/ Body.childAge body = VNull
  \/ trim (default [] (Body.email body)) = []
  \/ trim (default [] (Body.phone body)) = [] ->
  exists errs,
    errs <> []
    /\ postInquiry w body
       = (mkResponse 400
            (mkApiResponse false None (Some (lit "Validation failed"))
               (Some errs)),
          []).
Proof.
  intros Hm.
  assert (Hne : validationResult body <> []).
  { intros E. destruct (validated_groups _ E)
      as (E1 & E2 & E3 & E4 & E5 & _).
    unfold parentNameRules, childNameRules, childAgeRules, emailRules,
      phoneRules in *. cbn [snd] in *.
    rewrite !stringify_ofField in *.
    destruct Hm as [Hm | [Hm | [Hm | [Hm | [Hm | Hm]]]]]; rewrite Hm in *;
      discriminate. }
  unfold validationResult, postInquiry in *.
  destruct (inquiryValidation body) as [rawData [|e errs]]; simpl in *.
  - congruence.
  - exists (e :: errs). split; [discriminate | reflexivity].
Qed.

(** X10. The error [Invalid program selection] is reported exactly when a
    [preferredProgram] is present and is none of the six keys; an absent
    one is never reported. *)
Theorem unknown_program_reported (body : Body.t) :
  In (mkError (lit "preferredProgram") (lit "Invalid program selection"))
     (validationResult body)
  <-> exists p, Body.preferredProgram body = Some p /\ (p ∉ programKeys).
Proof.
  rewrite validationResult_unfold, !in_app_iff.
  assert (Hother : forall (f : string) l,
    lit f <> lit "preferredProgram" ->
    Forall (fun e => field e = lit f) l ->
    ~ In (mkError (lit "preferredProgram") (lit "Invalid program selection")) l).
  { intros f l Hf Hl Hin. rewrite List.Forall_forall in Hl.
    apply Hl in Hin. simpl in Hin. congruence. }
  split.
  - intros [H1 | [H2 | [H3 | [H4 | [H5 | [H6 | H7]]]]]].
    + now apply (Hother "parentName"%string _ ltac:(discriminate)
                   (parentNameRules_fields _)) in H1.
    + now apply (Hother "childName"%string _ ltac:(discriminate)
                   (childNameRules_fields _)) in H2.
    + now apply (Hother "childAge"%string _ ltac:(discriminate)
                   (check_field "childAge" _ _)) in H3.
    + now apply (Hother "email"%string _ ltac:(discriminate)
                   (emailRules_fields _)) in H4.
    + now apply (Hother "phone"%string _ ltac:(discriminate)
                   (phoneRules_fields _)) in H5.
    + destruct (Body.preferredProgram body) as [p|]; [|contradiction].
      exists p. split; [reflexivity|]. simpl in H6. unfold isIn in H6.
      destruct (bool_decide (p ∈ programKeys)) eqn:E; [contradiction|].
      now apply bool_decide_eq_false in E.
    + now apply (Hother "message"%string _ ltac:(discriminate)
                   (messageRules_fields _)) in H7.
  - intros (p & -> & Hp). do 5 right. left. simpl. unfold isIn.
    rewrite bool_decide_eq_false_2 by exact Hp. now left.
Qed.

(** X11. In every sanitized record built from a validated request the two
    names are the submitted names without the white space around them:
    they hold between 2 and 100 code units, letters and spaces of the
    accepted scripts only, and [sanitizeInput] has changed nothing in
    them. *)
Theorem validated_names_kept (body : Body.t) (data : InquiryFormData.t) :
  validationResult body = [] ->
  sanitizedData (fst (inquiryValidation body)) = Ok data ->
  InquiryFormData.parentName data = trim (default [] (Body.parentName body))
  /\ forallb isNameChar (InquiryFormData.parentName data) = true
  /\ (2 <= length (InquiryFormData.parentName data) <= 100)%nat
  /\ InquiryFormData.childName data
     = trim (default [] (Body.childName body))
  /\ forallb isNameChar (InquiryFormData.childName data) = true
  /\ (2 <= length (InquiryFormData.childName data) <= 100)%nat.
Proof.
  intros E Hd. destruct (sanitizedData_inv _ _ E Hd) as (age & e & _ & _ & ->).
  destruct (validated_groups _ E) as (E1 & E2 & _).
  unfold parentNameRules, childNameRules in E1, E2. cbn [snd] in E1, E2.
  rewrite stringify_ofField in E1, E2.
  apply name_rules_inv in E1 as [Hp Lp], E2 as [Hc Lc].
  assert (Hkeep : forall s, forallb isNameChar s = true ->
                            sanitizeInput (VStr s) = trim s).
  { intros s Hs. apply sanitizeInput_untouched. apply forallb_forall.
    intros c Hin. apply negb_true_iff, isNameChar_plain.
    revert c Hin. now apply forallb_forall. }
  cbn [InquiryFormData.parentName InquiryFormData.childName].
  rewrite !Hkeep, !trim_idem by assumption. tauto.
Qed.

(** X12. In every sanitized record built from a validated request the
    phone number is the submitted one without the white space around it:
    between 10 and 20 code units of the phone class, with nothing
    stripped. *)
Theorem validated_phone_kept (body : Body.t) (data : InquiryFormData.t) :
  validationResult body = [] ->
  sanitizedData (fst (inquiryValidation body)) = Ok data ->
  InquiryFormData.phone data = trim (default [] (Body.phone body))
  /\ forallb isPhoneChar (InquiryFormData.phone data) = true
  /\ (10 <= length (InquiryFormData.phone data) <= 20)%nat.
Proof.
  intros E Hd. destruct (sanitizedData_inv _ _ E Hd) as (age & e & _ & _ & ->).
  destruct (validated_groups _ E) as (_ & _ & _ & _ & E5 & _).
  unfold phoneRules in E5. cbn [snd] in E5. rewrite stringify_ofField in E5.
  apply app_eq_nil in E5 as [_ E5]. apply check_nil in E5.
  unfold phoneRegex in E5. apply andb_prop in E5 as [E5 Hc].
  apply andb_prop in E5 as [Hmin Hmax]. apply Nat.leb_le in Hmin, Hmax.
  cbn [InquiryFormData.phone].
  rewrite (forallb_filter_id _ _ Hc). repeat split; try assumption; lia.
Qed.

(** X13. In every sanitized record built from a validated request the age
    is the integer the submitted value stands for, between 2 and 12:
    [parseInt] reads back the number the age rule compared with the
    bounds. *)
Theorem validated_age_parsed (body : Body.t) (data : InquiryFormData.t) :
  validationResult body = [] ->
  sanitizedData (fst (inquiryValidation body)) = Ok data ->
  exists n,
    integerValue (Body.childAge body) = Some n
    /\ InquiryFormData.childAge data = Int n
    /\ (2 <= n <= 12)%Z.
Proof.
  intros E Hd.
  destruct (sanitizedData_inv _ _ E Hd) as (age & e & Ha & _ & ->).
  destruct (validated_rules _ E) as [Hage _].
  apply isInt_integerValue in Hage as (n & Hn & Hr).
  exists n. split; [exact Hn|].
  split; [|exact Hr]. cbn [InquiryFormData.childAge].
  destruct (Body.childAge body) as [| |b|m|s]; try discriminate;
    simpl in Hn, Ha; injection Ha as <-.
  - injection Hn as ->.
    exact (parseInt_integerLiteral _ _ (integerLiteral_showInt n)).
  - exact (parseInt_integerLiteral _ _ Hn).
Qed.

(** X14. On a validated request for which the sanitized record is built,
    the handler first posts once to the [sendMessage] address of the
    configured bot, with the configured chat, the text of the formatted
    record, the Markdown hint and a timeout of ten seconds; then it logs
    the failure of that call if there was one, and only then runs the
    confirmation. The failure is logged exactly when the reply is not a
    status 200. *)
Theorem validated_request_trace (w : world) (body : Body.t)
    (data : InquiryFormData.t) :
  validationResult body = [] ->
  sanitizedData (fst (inquiryValidation body)) = Ok data ->
  exists logs,
    snd (postInquiry w body)
    = HttpPost
        (lit "https://api.telegram.org/bot" ++ TELEGRAM_BOT_TOKEN w
         ++ lit "/sendMessage")
        (TELEGRAM_CHAT_ID w)
        (FormattedInquiry.formattedText (formatInquiry (now w) data))
        (lit "Markdown") 10000
      :: logs
      ++ snd (sendConfirmationEmail (InquiryFormData.email data)
                (InquiryFormData.childName data))
    /\ Forall (fun e => exists line, e = ConsoleError line) logs
    /\ (logs = [] <-> telegramReply w = Some 200%Z).
Proof.
  intros E Hd.
  rewrite (postInquiry_validated w _ _ E Hd). unfold sendToTelegram.
  destruct (telegramReply w) as [st|].
  - destruct (Z.eqb_spec st 200) as [->|Hst]; cbn [fst snd].
    + exists []. repeat split; auto.
    + eexists [_]. repeat split; eauto; try discriminate. congruence.
  - eexists [_; _]. cbn [fst snd]. repeat split; eauto; discriminate.
Qed.

(** X15. A request causes at most one HTTP call: exactly one when it passes
    validation and [normalizeEmail] answers with a string, none when it
    does not pass or the construction of the record raises. There is no
    retry. *)
Theorem one_http_post_at_most (w : world) (body : Body.t) :
  length (List.filter isHttpPost (snd (postInquiry w body)))
  = match validationResult body with
    | [] =>
        match normalizeEmail (trim (default [] (Body.email body))) with
        | Some _ => 1%nat
        | None => 0%nat
        end
    | _ :: _ => 0%nat
    end.
Proof.
  destruct (validationResult body) as [|e errs] eqn:E.
  - destruct (normalizeEmail (trim (default [] (Body.email body))))
      as [a|] eqn:He.
    + destruct (sanitizedData_normalized _ _ E He) as (data & Hd & _).
      rewrite (postInquiry_validated w _ _ E Hd). unfold sendToTelegram.
      destruct (telegramReply w) as [st|]; [destruct (st =? 200)%Z|];
        reflexivity.
    + now rewrite (postInquiry_refused w _ _ E (sanitizedData_refused _ E He)).
  - unfold validationResult, postInquiry in *.
    destruct (inquiryValidation body) as [rawData errs']. simpl in E.
    now subst errs'.
Qed.

End Validated.

(** X9, on the empty body. *)
Lemma blank_required_field_rejected_witness :
  exists errs,
    errs <> []
    /\ @postInquiry latin1 sampleLib sampleWorld emptyBody
       = (mkResponse 400
            (mkApiResponse false None (Some (lit "Validation failed"))
               (Some errs)),
          []).
Proof.
  apply (@blank_required_field_rejected latin1 sampleLib sampleWorld
           emptyBody).
  left. reflexivity.
Defined.

(** X11, on the end-to-end scenario. *)
Lemma validated_names_kept_witness :
  exists data,
    @sanitizedData latin1 (fst (@inquiryValidation sampleLib sampleBody))
    = Ok data
    /\ InquiryFormData.parentName data
       = trim (default [] (Body.parentName sampleBody))
    /\ forallb isNameChar (InquiryFormData.parentName data) = true
    /\ (2 <= length (InquiryFormData.parentName data) <= 100)%nat
    /\ InquiryFormData.childName data
       = trim (default [] (Body.childName sampleBody))
    /\ forallb isNameChar (InquiryFormData.childName data) = true
    /\ (2 <= length (InquiryFormData.childName data) <= 100)%nat.
Proof.
  eexists. split; [vm_compute; reflexivity|].
  apply (@validated_names_kept latin1 sampleLib sampleBody);
    vm_compute; reflexivity.
Defined.

(** X12, on the end-to-end scenario. *)
Lemma validated_phone_kept_witness :
  exists data,
    @sanitizedData latin1 (fst (@inquiryValidation sampleLib sampleBody))
    = Ok data
    /\ InquiryFormData.phone data = trim (default [] (Body.phone sampleBody))
    /\ forallb isPhoneChar (InquiryFormData.phone data) = true
    /\ (10 <= length (InquiryFormData.phone data) <= 20)%nat.
Proof.
  eexists. split; [vm_compute; reflexivity|].
  apply (@validated_phone_kept latin1 sampleLib sampleBody);
    vm_compute; reflexivity.
Defined.

(** X13, on the end-to-end scenario. *)
Lemma validated_age_parsed_witness :
  exists data,
    @sanitizedData latin1 (fst (@inquiryValidation sampleLib sampleBody))
    = Ok data
    /\ exists n,
         integerValue (Body.childAge sampleBody) = Some n
         /\ InquiryFormData.childAge data = Int n
         /\ (2 <= n <= 12)%Z.
Proof.
  eexists. split; [vm_compute; reflexivity|].
  apply (@validated_age_parsed latin1 sampleLib sampleBody);
    vm_compute; reflexivity.
Defined.

(** X14, on the end-to-end scenario, Telegram out of reach. *)
Lemma validated_request_trace_witness :
  exists data,
    @sanitizedData latin1 (fst (@inquiryValidation sampleLib sampleBody))
    = Ok data
    /\ exists logs,
         snd (@postInquiry latin1 sampleLib sampleWorld sampleBody)
         = HttpPost
             (lit "https://api.telegram.org/bot"
              ++ TELEGRAM_BOT_TOKEN sampleWorld ++ lit "/sendMessage")
             (TELEGRAM_CHAT_ID sampleWorld)
             (FormattedInquiry.formattedText
                (formatInquiry (now sampleWorld) data))
             (lit "Markdown") 10000
           :: logs
           ++ snd (sendConfirmationEmail (InquiryFormData.email data)
                     (InquiryFormData.childName data))
         /\ Forall (fun e => exists line, e = ConsoleError line) logs
         /\ (logs = [] <-> telegramReply sampleWorld = Some 200%Z).
Proof.
  eexists. split; [vm_compute; reflexivity|].
  apply (@validated_request_trace latin1 sampleLib sampleWorld sampleBody);
    vm_compute; reflexivity.
Defined.

(** ** Start-up *)

(** X16. The start-up warning about the bot token is printed exactly when
    the variable is unset, empty or the placeholder text itself, and these
    are the cases in which requests are posted with the placeholder token;
    any other value is used as it is. The same holds for the chat id. *)
Theorem placeholder_configuration_warned (env : ProcessEnv.t) :
  (In tokenWarning (onListen env) <-> botTokenOf env = tokenPlaceholder)
  /\ (botTokenOf env = tokenPlaceholder
      <-> ProcessEnv.TELEGRAM_BOT_TOKEN env = None
          \/ ProcessEnv.TELEGRAM_BOT_TOKEN env = Some []
          \/ ProcessEnv.TELEGRAM_BOT_TOKEN env = Some tokenPlaceholder)
  /\ (In chatIdWarning (onListen env) <-> chatIdOf env = chatIdPlaceholder)
  /\ (chatIdOf env = chatIdPlaceholder
      <-> ProcessEnv.TELEGRAM_CHAT_ID env = None
          \/ ProcessEnv.TELEGRAM_CHAT_ID env = Some []
          \/ ProcessEnv.TELEGRAM_CHAT_ID env = Some chatIdPlaceholder)
  /\ (forall reply clock c t,
        ProcessEnv.TELEGRAM_BOT_TOKEN env = Some (c :: t) ->
        TELEGRAM_BOT_TOKEN (worldOf env reply clock) = c :: t).
Proof.
  assert (Hor : forall v d,
    envOr v d = d <-> v = None \/ v = Some [] \/ v = Some d).
  { intros v d. destruct v as [[|c t]|]; simpl.
    - split; [intros _; right; left; reflexivity | reflexivity].
    - split; [intros ->; right; right; reflexivity
             | intros [|[|]]; congruence].
    - split; [left; reflexivity | reflexivity]. }
  assert (Hne : tokenWarning <> chatIdWarning) by (vm_compute; discriminate).
  unfold onListen, botTokenOf, chatIdOf. repeat split.
  - rewrite !in_app_iff. intros [Hin | [Hin | Hin]].
    + destruct Hin as [|[|[]]]; discriminate.
    + destruct (decide _) as [E|]; [exact E | destruct Hin].
    + destruct (decide (envOr (ProcessEnv.TELEGRAM_CHAT_ID env) _ = _));
        [|destruct Hin]. destruct Hin as [Hin|[]]. congruence.
  - intros E. rewrite !in_app_iff. right. left.
    rewrite decide_True by exact E. now left.
  - apply Hor.
  - apply Hor.
  - rewrite !in_app_iff. intros [Hin | [Hin | Hin]].
    + destruct Hin as [|[|[]]]; discriminate.
    + destruct (decide (envOr (ProcessEnv.TELEGRAM_BOT_TOKEN env) _ = _));
        [|destruct Hin]. destruct Hin as [Hin|[]]. congruence.
    + destruct (decide _) as [E|]; [exact E | destruct Hin].
  - intros E. rewrite !in_app_iff. right. right.
    rewrite decide_True by exact E. now left.
  - apply Hor.
  - apply Hor.
  - intros reply clock c t Ht. simpl. unfold botTokenOf. now rewrite Ht.
Qed.

(** ** The form in the browser *)

Lemma takeWhile_stop p a c r :
  forallb p a = true -> p c = false -> takeWhile p (a ++ c :: r) = a.
Proof.
  intros Ha Hc. induction a as [|x a IH]; simpl in *; [now rewrite Hc|].
  apply andb_prop in Ha as [-> Ha]. now rewrite IH.
Qed.

Lemma dropWhile_stop p a c r :
  forallb p a = true -> p c = false -> dropWhile p (a ++ c :: r) = c :: r.
Proof.
  intros Ha Hc. induction a as [|x a IH]; simpl in *; [now rewrite Hc|].
  apply andb_prop in Ha as [-> Ha]. now apply IH.
Qed.

Lemma innerDot_split d :
  innerDot d = true
  <-> exists b c, d = b ++ 46 :: c /\ b <> [] /\ c <> [].
Proof.
  split.
  - destruct d as [|x t]; [discriminate|]. simpl. intros Hd.
    apply existsb_exists in Hd as (y & Hy & Ey). apply N.eqb_eq in Ey.
    subst y. destruct t as [|t0 t']; [contradiction|].
    destruct (@exists_last _ (t0 :: t') ltac:(discriminate)) as (l & z & El).
    rewrite El, removelast_last in Hy.
    apply in_split in Hy as (l1 & l2 & ->).
    exists (x :: l1), (l2 ++ [z]). rewrite El. repeat split.
    + simpl. now rewrite <- app_assoc.
    + discriminate.
    + now destruct l2.
  - intros (b & c & -> & Hb & Hc). destruct b as [|x b]; [contradiction|].
    destruct c as [|c0 c]; [contradiction|]. simpl app. unfold innerDot.
    rewrite removelast_app by discriminate.
    rewrite existsb_app. simpl. apply orb_true_r.
Qed.

(** X17. The address test of the form accepts a text exactly when it reads
    [a@b.c] with [a], [b] and [c] not empty and without white space or a
    further [@]: in particular an accepted address holds exactly one [@]. *)
Theorem emailPattern_shape (s : jstring) :
  emailPattern s = true
  <-> exists a b c,
        s = a ++ 64 :: b ++ 46 :: c
        /\ a <> [] /\ b <> [] /\ c <> []
        /\ forallb notSpaceOrAt (a ++ b ++ c) = true.
Proof.
  unfold emailPattern. split.
  - destruct (dropWhile notSpaceOrAt s) as [|x d] eqn:Ed; [discriminate|].
    intros Hs. apply andb_prop in Hs as [Hs Hdot].
    apply andb_prop in Hs as [Hs Hd]. apply andb_prop in Hs as [Hx Ha].
    apply N.eqb_eq in Hx. subst x.
    apply innerDot_split in Hdot as (b & c & -> & Hb & Hc).
    exists (takeWhile notSpaceOrAt s), b, c.
    rewrite <- Ed, takeWhile_dropWhile. repeat split; try assumption.
    + intros E. now rewrite E in Ha.
    + rewrite forallb_app in Hd. simpl in Hd.
      apply andb_prop in Hd as [Hb' Hc'].
      now rewrite !forallb_app, takeWhile_forallb, Hb', Hc'.
  - intros (a & b & c & -> & Ha & Hb & Hc & Hall).
    rewrite !forallb_app in Hall. apply andb_prop in Hall as [Ha' Hbc].
    apply andb_prop in Hbc as [Hb' Hc'].
    rewrite dropWhile_stop, takeWhile_stop by (assumption || reflexivity).
    rewrite N.eqb_refl, forallb_app. simpl forallb. rewrite Hb', Hc'.
    replace (innerDot (b ++ 46 :: c)) with true
      by (symmetry; apply innerDot_split; eauto).
    now destruct a.
Qed.

Lemma complain_chain b1 b2 b3 b4 b5 (i1 m1 i2 m2 i3 m3 i4 m4 i5 m5 : string) :
  let r :=
    complain b5 i5 m5 (complain b4 i4 m4 (complain b3 i3 m3
      (complain b2 i2 m2 (complain b1 i1 m1 (true, []))))) in
  fst r = negb (b1 || b2 || b3 || b4 || b5)
  /\ (snd r = [] <-> fst r = true)
  /\ (b1 = false -> b2 = false -> b3 = false -> b5 = false ->
      Forall (fun c => fst c = lit i4) (snd r)).
Proof.
  destruct b1, b2, b3, b4, b5; simpl; repeat split;
    try discriminate; try reflexivity; intros; repeat constructor.
Qed.

Lemma orb5_false b1 b2 b3 b4 b5 :
  b1 || b2 || b3 || b4 || b5 = false
  <-> b1 = false /\ b2 = false /\ b3 = false /\ b4 = false /\ b5 = false.
Proof. destruct b1, b2, b3, b4, b5; simpl; intuition discriminate. Qed.

Lemma long_enough (s : jstring) n :
  (1 <= n)%nat ->
  isEmpty s || (length s <? n)%nat = false <-> (n <= length s)%nat.
Proof.
  intros Hn. rewrite orb_false_iff, Nat.ltb_ge. destruct s; simpl; split;
    intros; try split; try reflexivity; lia.
Qed.

Lemma ageRefused_false a :
  ageRefused a = false <-> exists n, a = Int n /\ (2 <= n <= 12)%Z.
Proof.
  destruct a as [|z]; simpl.
  - split; [discriminate | intros (n & Hn & _); discriminate].
  - rewrite !orb_false_iff, Z.eqb_neq, !Z.ltb_ge. split.
    + intros [[? ?] ?]. exists z. split; [reflexivity | lia].
    + intros (n & [= <-] & Hn). lia.
Qed.

Lemma validateForm_conditions (f : Form.t) :
  (fst (validateForm f) = true
   <-> (2 <= length (trim (Form.parentName f)))%nat
       /\ (2 <= length (trim (Form.childName f)))%nat
       /\ (exists n, parseInt (Form.childAge f) = Int n /\ (2 <= n <= 12)%Z)
       /\ emailPattern (trim (Form.email f)) = true
       /\ (10 <= length (trim (Form.phone f)))%nat)
  /\ (snd (validateForm f) = [] <-> fst (validateForm f) = true).
Proof.
  unfold validateForm.
  match goal with |- context [complain ?b5 ?i5 ?m5 (complain ?b4 ?i4 ?m4
      (complain ?b3 ?i3 ?m3 (complain ?b2 ?i2 ?m2
        (complain ?b1 ?i1 ?m1 _))))] =>
    destruct (complain_chain b1 b2 b3 b4 b5 i1 m1 i2 m2 i3 m3 i4 m4 i5 m5)
      as (Hf & Hs & _)
  end.
  split; [|exact Hs]. rewrite Hf, negb_true_iff, orb5_false.
  rewrite !long_enough, ageRefused_false by lia.
  rewrite orb_false_iff, negb_false_iff. split.
  - intros (H1 & H2 & H3 & [_ H4] & H5). tauto.
  - intros (H1 & H2 & H3 & H4 & H5). repeat split; try assumption.
    destruct (trim (Form.email f)); [discriminate | reflexivity].
Qed.

(** X18. The form is accepted by [validateForm] exactly when both names
    hold at least 2 code units after trimming, the age field starts with an
    integer between 2 and 12, the trimmed address passes the address test
    and the trimmed phone number holds at least 10 code units; and it is
    accepted exactly when no error was shown. *)
Theorem validateForm_accepts (f : Form.t) :
  (fst (validateForm f) = true
   <-> (2 <= length (trim (Form.parentName f)))%nat
       /\ (2 <= length (trim (Form.childName f)))%nat
       /\ (exists n, parseInt (Form.childAge f) = Int n /\ (2 <= n <= 12)%Z)
       /\ emailPattern (trim (Form.email f)) = true
       /\ (10 <= length (trim (Form.phone f)))%nat)
  /\ (snd (validateForm f) = [] <-> fst (validateForm f) = true).
Proof. apply validateForm_conditions. Qed.

Lemma check_quiet (P : ValidationError -> Prop) f m ok :
  (ok = false -> P (mkError (lit f) (lit m))) -> Forall P (check f m ok).
Proof. destruct ok; intros HP; repeat constructor. now apply HP. Qed.

Lemma at_least_two_inked (s : jstring) :
  (2 <= length s)%nat -> negb (isEmpty s) = true.
Proof. destruct s; simpl; [lia | reflexivity]. Qed.

Section Browser.
Context `{StringPrototype} `{ValidatorLib}.

Lemma fieldPasses_childAge body :
  fieldPasses "childAge" body
  <-> isInt 2 12 (stringify (Body.childAge body)) = true.
Proof.
  unfold fieldPasses. rewrite validationResult_unfold, !Forall_app.
  unfold childAgeRules at 1. simpl snd at 3. rewrite check_passes.
  split; [tauto|]. intros Hage.
  repeat split; try exact Hage;
    [ apply (other_field "parentName"), parentNameRules_fields
    | apply (other_field "childName"), childNameRules_fields
    | apply (other_field "email"), emailRules_fields
    | apply (other_field "phone"), phoneRules_fields
    | apply (other_field "preferredProgram"), preferredProgramRules_fields
    | apply (other_field "message"), messageRules_fields ];
    discriminate.
Qed.

(** X19. What the form accepts and sends never makes the server report a
    required field as missing, nor the age: after the client-side test the
    server can still object to the length or the characters of a name, to
    the address, the phone number, the program or the message only. *)
Theorem client_accepted_never_required (f : Form.t) :
  fst (validateForm f) = true ->
  fieldPasses "childAge" (formData f)
  /\ Forall (fun e => ~ In (msg e) requiredMessages)
       (validationResult (formData f)).
Proof.
  intros Hv. apply validateForm_conditions in Hv
    as (Hp & Hc & (n & Hn & Hr) & He & Hph).
  split.
  - apply fieldPasses_childAge. unfold formData. cbn [Body.childAge].
    rewrite Hn. apply (isInt_integerValue (VNum n)). exists n. now split.
  - assert (Hmail : negb (isEmpty (trim (Form.email f))) = true)
      by (destruct (trim (Form.email f)); [discriminate | reflexivity]).
    apply at_least_two_inked in Hp, Hc.
    assert (Hphone : negb (isEmpty (trim (Form.phone f))) = true)
      by (apply at_least_two_inked; lia).
    rewrite validationResult_unfold, !Forall_app.
    unfold formData, parentNameRules, childNameRules, childAgeRules,
      emailRules, phoneRules, preferredProgramRules, messageRules.
    cbn [snd Body.parentName Body.childName Body.childAge Body.email
         Body.phone Body.preferredProgram Body.message].
    rewrite !stringify_ofField. cbn [default from_option id].
    rewrite !trim_idem, !Forall_app.
    repeat split; apply check_quiet; intros Hok;
      first [ congruence
            | cbn [msg]; intros Hin; vm_compute in Hin;
              intuition discriminate ].
Qed.

(** X20. When the server accepts what the form would send, the client-side
    test has no objection either, except possibly to the address, which the
    two sides test differently. *)
Theorem server_accepted_client_agrees (f : Form.t) :
  validationResult (formData f) = [] ->
  Forall (fun shown => fst shown = lit "email") (snd (validateForm f)).
Proof.
  intros E. destruct (validated_groups _ E) as (E1 & E2 & E3 & _ & E5 & _).
  unfold formData, parentNameRules, childNameRules, childAgeRules,
    phoneRules in E1, E2, E3, E5.
  cbn [snd Body.parentName Body.childName Body.childAge Body.phone]
    in E1, E2, E3, E5.
  rewrite !stringify_ofField in *. cbn [default from_option id] in *.
  rewrite !trim_idem in *.
  apply name_rules_inv in E1 as [_ L1], E2 as [_ L2].
  apply check_nil in E3. apply app_eq_nil in E5 as [_ E5].
  apply check_nil in E5. unfold phoneRegex in E5.
  apply andb_prop in E5 as [E5 _]. apply andb_prop in E5 as [L5 _].
  apply Nat.leb_le in L5.
  assert (Hage : ageRefused (parseInt (Form.childAge f)) = false).
  { apply ageRefused_false. destruct (parseInt (Form.childAge f)) as [|n].
    - discriminate.
    - apply (isInt_integerValue (VNum n)) in E3 as (m & [= <-] & Hm).
      exists n. now split. }
  unfold validateForm.
  match goal with |- context [complain ?b5 ?i5 ?m5 (complain ?b4 ?i4 ?m4
      (complain ?b3 ?i3 ?m3 (complain ?b2 ?i2 ?m2
        (complain ?b1 ?i1 ?m1 _))))] =>
    destruct (complain_chain b1 b2 b3 b4 b5 i1 m1 i2 m2 i3 m3 i4 m4 i5 m5)
      as (_ & _ & Hall)
  end.
  apply Hall; try exact Hage; apply long_enough; lia.
Qed.

(** X21. What the visitor reads after pressing the button, when the page
    talks to this server: nothing is sent unless the client-side test
    passes; the acknowledgment of the server is shown, as a success, when
    the server accepts the data as well and [normalizeEmail] answers with
    a string for the address; when it answers [false] the text of the
    server's status 500 is shown, as an error; when the client-side test or
    the validation of the server fails, the same request to correct the
    errors is shown, as an error. *)
Theorem onSubmit_outcome (w : world) (f : Form.t) :
  onSubmit (fun body => Replied (fst (postInquiry w body))) f
  = if fst (validateForm f) then
      (Some (formData f),
       match validationResult (formData f) with
       | [] =>
           match normalizeEmail (trim (Form.email f)) with
           | Some _ =>
               mkFormMessage
                 (lit "Thank you! Your inquiry has been received. We will contact you within 24 hours.")
                 (lit "form-message success")
           | None =>
               mkFormMessage
                 (lit "An internal server error occurred. Please try again later.")
                 (lit "form-message error")
           end
       | _ :: _ =>
           mkFormMessage (lit "Please correct the errors in the form.")
             (lit "form-message error")
       end)
    else
      (None,
       mkFormMessage (lit "Please correct the errors in the form.")
         (lit "form-message error")).
Proof.
  unfold onSubmit. destruct (fst (validateForm f)); [|reflexivity]. f_equal.
  destruct (validationResult (formData f)) as [|e errs] eqn:E.
  - assert (Hm : trim (default [] (Body.email (formData f)))
                 = trim (Form.email f)) by apply trim_idem.
    rewrite <- Hm.
    destruct (normalizeEmail (trim (default [] (Body.email (formData f)))))
      as [a|] eqn:He.
    + destruct (sanitizedData_normalized _ _ E He) as (data & Hd & _).
      now rewrite (postInquiry_validated w _ _ E Hd).
    + now rewrite (postInquiry_refused w _ _ E (sanitizedData_refused _ E He)).
  - unfold validationResult, postInquiry in *.
    destruct (inquiryValidation (formData f)) as [rawData errs'].
    simpl in E. now subst errs'.
Qed.

End Browser.

(** X19, on the sample form. *)
Lemma client_accepted_never_required_witness :
  @fieldPasses sampleLib "childAge" (formData sampleForm)
  /\ Forall (fun e => ~ In (msg e) requiredMessages)
       (@validationResult sampleLib (formData sampleForm)).
Proof.
  apply (@client_accepted_never_required sampleLib sampleForm).
  vm_compute. reflexivity.
Defined.

(** X20, on the sample form. *)
Lemma server_accepted_client_agrees_witness :
  Forall (fun shown => fst shown = lit "email")
    (snd (validateForm sampleForm)).
Proof.
  apply (@server_accepted_client_agrees sampleLib sampleForm).
  vm_compute. reflexivity.
Defined.

(** ** The navigation menu *)

Lemma menuStep_consistent m ev :
  menuConsistent m -> menuConsistent (fst (menuStep m ev)).
Proof.
  unfold menuConsistent. destruct m as [e a l]. simpl. intros [-> ->].
  destruct ev as [[| | |] w | w | key]; simpl;
    repeat match goal with
    | |- context [if ?b then _ else _] => destruct b
    end; simpl; auto.
Qed.

Lemma menuRun_consistent evs m :
  menuConsistent m -> menuConsistent (menuRun m evs).
Proof.
  revert m. induction evs as [|ev evs IH]; intros m Hm; [exact Hm|].
  apply IH, menuStep_consistent, Hm.
Qed.

Lemma consistent_inactive m :
  menuConsistent m -> navActive m = false -> m = closedMenu.
Proof.
  unfold menuConsistent. destruct m as [e a l]. simpl.
  now intros [-> ->] ->.
Qed.

(** X22. From the closed menu, whatever the visitor does, the three parts
    of the state agree: the button says [aria-expanded] exactly when the
    menu has the class [active], and the page is locked against scrolling
    exactly then. *)
Theorem menu_always_consistent (evs : list menuEvent) :
  ariaExpanded (menuRun closedMenu evs) = navActive (menuRun closedMenu evs)
  /\ scrollLocked (menuRun closedMenu evs)
     = navActive (menuRun closedMenu evs).
Proof. apply menuRun_consistent. now split. Qed.

(** X23. In every state reached from the closed menu: the Escape key and a
    resize to 768 pixels or more close the menu; below 768 pixels a click
    outside or on a link of the menu closes it; from 768 pixels on these
    clicks change nothing, and a click inside the menu beside the links
    never does. The button is given the focus only by Escape on an open
    menu. *)
Theorem menu_closing (evs : list menuEvent) :
  let m := menuRun closedMenu evs in
  fst (menuStep m (KeyDown (lit "Escape"))) = closedMenu
  /\ (forall w, (768 <= w)%Z -> fst (menuStep m (Resize w)) = closedMenu)
  /\ (forall w, (w < 768)%Z ->
        fst (menuStep m (Click Outside w)) = closedMenu
        /\ fst (menuStep m (Click OnNavLink w)) = closedMenu)
  /\ (forall w, (768 <= w)%Z ->
        fst (menuStep m (Click Outside w)) = m
        /\ fst (menuStep m (Click OnNavLink w)) = m)
  /\ (forall w, fst (menuStep m (Click InsideNav w)) = m)
  /\ (forall ev,
        snd (menuStep m ev) = true
        <-> ev = KeyDown (lit "Escape") /\ navActive m = true).
Proof.
  intros m.
  assert (Hm : menuConsistent m) by (apply menuRun_consistent; now split).
  pose proof (consistent_inactive m Hm) as Hclosed.
  split; [|split; [|split; [|split; [|split]]]].
  - simpl. destruct (navActive m); [reflexivity | now rewrite Hclosed].
  - intros w Hw. simpl. now rewrite (proj2 (Z.leb_le 768 w)).
  - intros w Hw. simpl. rewrite (proj2 (Z.ltb_lt w 768)) by assumption.
    simpl. split; [|reflexivity].
    destruct (navActive m); [reflexivity | now rewrite Hclosed].
  - intros w Hw. simpl. now rewrite (proj2 (Z.ltb_ge w 768)).
  - reflexivity.
  - intros ev. split.
    + destruct ev as [[| | |] w | w | key]; simpl; try discriminate.
      destruct (bool_decide (key = lit "Escape")) eqn:Ek;
        [|discriminate].
      apply bool_decide_eq_true in Ek as ->.
      destruct (navActive m); [now split | discriminate].
    + intros [-> Ha]. simpl. now rewrite Ha.
Qed.

(** X24. In every state reached from the closed menu a click on the button
    opens a closed menu and closes an open one, locks the page exactly when
    it opens, and a second click brings back the state before the first. *)
Theorem hamburger_toggles (evs : list menuEvent) (w1 w2 : Z) :
  let m := menuRun closedMenu evs in
  let m1 := fst (menuStep m (Click OnHamburger w1)) in
  navActive m1 = negb (navActive m)
  /\ ariaExpanded m1 = negb (navActive m)
  /\ scrollLocked m1 = negb (navActive m)
  /\ fst (menuStep m1 (Click OnHamburger w2)) = m.
Proof.
  intros m m1.
  assert (Hm : menuConsistent m) by (apply menuRun_consistent; now split).
  unfold m1. clearbody m. destruct m as [e a l]. destruct Hm as [He Hl].
  simpl in *. subst e l. rewrite !negb_involutive. auto.
Qed.
